(** * Newsletter PDF helper ([src/helpers/pdf/index.ts])

    A shallow embedding of the text-region extraction, the coordinate
    mapper, the rectangle intersection test, the page rasterizer and the
    newsletter processor, together with the properties the specification
    states about them.

    JavaScript numbers are IEEE 754 binary64 values; they are modelled by
    Rocq's primitive [float], whose operations are the same binary64
    operations, so that no rounding is idealised away. *)

From Stdlib Require Import Floats ZArith List String Ascii Bool Lia.
From Stdlib Require Import DecimalString DecimalZ.
Import ListNotations.

Local Open Scope list_scope.
Local Open Scope string_scope.

(** ** JavaScript numbers *)

Module JsNum.

Definition num := float.

(** [a < b]; false as soon as one side is NaN. *)
Definition lt (a b : num) : bool := PrimFloat.ltb a b.

(** [a > b] is evaluated as [b < a] with the operands swapped. *)
Definition gt (a b : num) : bool := PrimFloat.ltb b a.

(** [a === b] on numbers: [+0 === -0] holds, [NaN === NaN] does not. *)
Definition strict_eq (a b : num) : bool := PrimFloat.eqb a b.

(** ToBoolean on a number: falsy exactly for [+0], [-0] and [NaN]. *)
Definition truthy (a : num) : bool :=
  negb (PrimFloat.eqb a PrimFloat.zero || PrimFloat.is_nan a).

(** [v || 0] where [v] may be [undefined] ([None]). *)
Definition or_zero (v : option num) : num :=
  match v with
  | Some a => if truthy a then a else PrimFloat.zero
  | None => PrimFloat.zero
  end.

(** [arr[i]] used as a number: an index out of range yields [undefined],
    which every arithmetic operator turns into NaN. *)
Definition index (arr : list num) (i : nat) : num :=
  nth i arr PrimFloat.nan.

End JsNum.

(** ** Data model *)

(** [interface Rect]. *)
Record Rect : Set := mkRect {
  r_height : float;
  r_width : float;
  r_x : float;
  r_y : float
}.

Definition COVER_IMAGE_RECT : Rect :=
  {| r_height := 1201; r_width := 1068; r_x := 60; r_y := 333 |}.

Definition EDITORIAL_RECT : Rect :=
  {| r_height := 800; r_width := 1064; r_x := 80; r_y := 200 |}.

(** The rectangles local to [processNewsletter]. *)
Definition dateRect : Rect :=
  {| r_height := 120; r_width := 373; r_x := 785; r_y := 97 |}.

Definition descriptionRect : Rect :=
  {| r_height := 100; r_width := 1093; r_x := 49; r_y := 1540 |}.

Definition issueRect : Rect :=
  {| r_height := 73; r_width := 193; r_x := 936; r_y := 244 |}.

(** The part of pdf.js' [PageViewport] the helper reads. *)
Record Viewport : Set := mkViewport {
  vp_width : float;
  vp_height : float;
  vp_scale : float
}.

(** pdf.js' [TextItem]: the fields the helper reads.  [width] and [height]
    are guarded by [|| 0] in the source, so they may be absent. *)
Record TextItem : Set := mkTextItem {
  ti_str : string;
  ti_transform : list float;
  ti_width : option float;
  ti_height : option float
}.

(** pdf.js' [TextMarkedContent]: it has no [str] property. *)
Record TextMarkedContent : Set := mkTextMarkedContent {
  mc_type : string;
  mc_id : option string
}.

(** [TextItem | TextMarkedContent]. *)
Inductive Item : Set :=
| ItemText (t : TextItem)
| ItemMarked (m : TextMarkedContent).

(** A decoded page: the items that [getTextContent()] resolves to, in the
    page's enumeration order, and [getViewport({ scale })]. *)
Record Page : Type := mkPage {
  textContent_items : list Item;
  getViewport : float -> Viewport
}.

(** ** Rectangle intersection *)

Definition rectIntersects (rect1 rect2 : Rect) : bool :=
  JsNum.lt (r_x rect1) (r_x rect2 + r_width rect2)%float &&
  JsNum.gt (r_x rect1 + r_width rect1)%float (r_x rect2) &&
  JsNum.lt (r_y rect1) (r_y rect2 + r_height rect2)%float &&
  JsNum.gt (r_y rect1 + r_height rect1)%float (r_y rect2).

(** ** Coordinate mapper *)

(** The closure [pdfRectToPixelRect] of [getTextInRect], with the viewport
    it captures made a parameter. *)
Definition pdfRectToPixelRect (viewport : Viewport) (pdfRect : Rect) : Rect :=
  let pixelX := (r_x pdfRect * vp_scale viewport)%float in
  let pixelY :=
    ((vp_height viewport / vp_scale viewport - r_y pdfRect)
       * vp_scale viewport)%float in
  let pixelWidth := (r_width pdfRect * vp_scale viewport)%float in
  let pixelHeight := (r_height pdfRect * vp_scale viewport)%float in
  {| r_height := pixelHeight;
     r_width := pixelWidth;
     r_x := pixelX;
     r_y := (pixelY - pixelHeight)%float |}.

(** The mapper as section 4.1 of the specification words it: scale the
    four components, flip the vertical axis, then shift the box up by its
    pixel height. *)
Definition mapper_flip_y (H s y : float) : float := ((H / s - y) * s)%float.

Definition mapper_spec (H s : float) (doc : Rect) : Rect :=
  let flipped := mapper_flip_y H s (r_y doc) in
  {| r_height := (r_height doc * s)%float;
     r_width := (r_width doc * s)%float;
     r_x := (r_x doc * s)%float;
     r_y := (flipped - r_height doc * s)%float |}.

(** ** Rectangle text extractor *)

(** The bounding box the filter builds for a text item, in document
    coordinates. *)
Definition itemRect (t : TextItem) : Rect :=
  let x := JsNum.index (ti_transform t) 4 in
  let y := JsNum.index (ti_transform t) 5 in
  let width := JsNum.or_zero (ti_width t) in
  let height := JsNum.or_zero (ti_height t) in
  {| r_height := height; r_width := width; r_x := x; r_y := y |}.

(** The callback given to [filter]. *)
Definition keepItem (viewport : Viewport) (rect : Rect) (item : Item) : bool :=
  match item with
  | ItemText t =>
      let box := itemRect t in
      if JsNum.strict_eq (r_height box) PrimFloat.zero then false
      else
        let pixelRect := pdfRectToPixelRect viewport box in
        rectIntersects pixelRect rect
  | ItemMarked _ => false
  end.

(** The callback given to [map]. *)
Definition itemStr (item : Item) : string :=
  match item with
  | ItemText t => ti_str t
  | ItemMarked _ => ""
  end.

(** [Array.prototype.join] on strings. *)
Definition join (sep : string) (parts : list string) : string :=
  String.concat sep parts.

Definition getTextInRect (page : Page) (rect : Rect) : string :=
  let items := textContent_items page in
  let viewport := getViewport page 2%float in
  join " " (map itemStr (filter (keepItem viewport rect) items)).

(** The extractor as section 4.2 of the specification words its contract:
    the target is first mapped through the coordinate mapper, and a text
    fragment is kept when its pixel-space box intersects the mapped
    target.  Only used to compare with [getTextInRect]. *)
Definition keepItem_contract (viewport : Viewport) (rect : Rect) (item : Item)
  : bool :=
  match item with
  | ItemText t =>
      rectIntersects (pdfRectToPixelRect viewport (itemRect t))
                     (pdfRectToPixelRect viewport rect)
  | ItemMarked _ => false
  end.

Definition getTextInRect_contract (page : Page) (rect : Rect) : string :=
  let viewport := getViewport page 2%float in
  join " " (map itemStr
              (filter (keepItem_contract viewport rect)
                      (textContent_items page))).

(** The text items of a page, in enumeration order. *)
Fixpoint textItems (items : list Item) : list TextItem :=
  match items with
  | [] => []
  | ItemText t :: rest => t :: textItems rest
  | ItemMarked _ :: rest => textItems rest
  end.

(** A text item takes part in the extraction: its defaulted height is not
    zero and its pixel-space box intersects the target taken as given. *)
Definition participates (viewport : Viewport) (rect : Rect) (t : TextItem)
  : bool :=
  negb (JsNum.strict_eq (JsNum.or_zero (ti_height t)) PrimFloat.zero) &&
  rectIntersects (pdfRectToPixelRect viewport (itemRect t)) rect.

(** The width of a text item is zero or absent. *)
Definition zeroWidth (t : TextItem) : bool :=
  match ti_width t with
  | Some w => JsNum.strict_eq w PrimFloat.zero
  | None => true
  end.

(** ** Strings *)

(** [String.prototype.split] with a one-character separator: one field per
    separator occurrence plus one, empty fields included. *)
Fixpoint split_by (is_sep : ascii -> bool) (s : string) : list string :=
  match s with
  | EmptyString => [EmptyString]
  | String c rest =>
      if is_sep c then EmptyString :: split_by is_sep rest
      else
        match split_by is_sep rest with
        | field :: fields => String c field :: fields
        | [] => [String c EmptyString]
        end
  end.

Definition split (sep : ascii) (s : string) : list string :=
  split_by (Ascii.eqb sep) s.

(** No occurrence of the character [c] in [s]. *)
Fixpoint lacks (c : ascii) (s : string) : bool :=
  match s with
  | EmptyString => true
  | String d rest => negb (Ascii.eqb c d) && lacks c rest
  end.

(** ASCII white space: tab, line feed, vertical tab, form feed, carriage
    return and space. *)
Definition is_whitespace (c : ascii) : bool :=
  let n := nat_of_ascii c in
  ((9 <=? n) && (n <=? 13) || (n =? 32))%nat.

Definition nonempty (s : string) : bool :=
  match s with
  | EmptyString => false
  | String _ _ => true
  end.

(** The whitespace-delimited tokens of a string: the maximal runs of
    characters that are not white space. *)
Definition tokens (s : string) : list string :=
  filter nonempty (split_by is_whitespace s).

(** Number to string for an integer-valued number: its decimal digits.
    This is what a template literal prints for every safe integer;
    JavaScript switches to the exponent form from 1e21 on, and above
    2^53 not every integer is a number, so what is proved about a printed
    number is proved for safe integers. *)
Definition Z_to_string (n : Z) : string :=
  NilEmpty.string_of_int (Z.to_int n).

(** [Number.MAX_SAFE_INTEGER], 2^53 - 1. *)
Definition MAX_SAFE_INTEGER : Z := 9007199254740991.

(** [Number.isSafeInteger] on an integer. *)
Definition isSafeInteger (n : Z) : bool :=
  (Z.abs n <=? MAX_SAFE_INTEGER)%Z.

(** ** Issue number *)

(** What [safeParseInt] may return: [undefined], [null] or an integer. *)
Inductive JsInt : Set :=
| JsUndefined
| JsNull
| JsNumber (n : Z).

Definition nullish (v : JsInt) : bool :=
  match v with
  | JsNumber _ => false
  | _ => true
  end.

(** [`${v}`] for such a value. *)
Definition JsInt_to_string (v : JsInt) : string :=
  match v with
  | JsUndefined => "undefined"
  | JsNull => "null"
  | JsNumber n => Z_to_string n
  end.

(** [undefined], [null] or a safe integer: the values [JsInt_to_string]
    prints as JavaScript does. *)
Definition printable (v : JsInt) : bool :=
  match v with
  | JsNumber n => isSafeInteger n
  | _ => true
  end.

(** A JavaScript [Date]: an invalid date holds NaN, every getter of which
    returns NaN. *)
Inductive JSDate : Set :=
| InvalidDate
| ValidDate (year month : Z).

(** [getFullYear()] and [getMonth()]; [None] stands for NaN. *)
Definition getFullYear (d : JSDate) : option Z :=
  match d with
  | InvalidDate => None
  | ValidDate y _ => Some y
  end.

Definition getMonth (d : JSDate) : option Z :=
  match d with
  | InvalidDate => None
  | ValidDate _ m => Some m
  end.

(** [`${date?.getter()}`]: [undefined] when there is no date. *)
Definition optional_call_to_string (getter : JSDate -> option Z)
  (date : option JSDate) : string :=
  match date with
  | None => "undefined"
  | Some d =>
      match getter d with
      | None => "NaN"
      | Some n => Z_to_string n
      end
  end.

(** The helpers imported from [../date], [../number] and [../string],
    which are not part of the file under study. *)
Class Helpers : Type := {
  parseMonthYear : string -> option JSDate;
  safeParseInt : option string -> JsInt;
  slugify : string -> string
}.

Definition issueTextToIssueNumber `{Helpers} (issueText : string) : JsInt :=
  let issueNumber := nth_error (split " " issueText) 1 in
  safeParseInt issueNumber.

(** ** Host environment *)

(** The object serialized by [JSON.stringify] into [<slug>.json]. *)
Record NewsletterData : Set := mkNewsletterData {
  nd_date : option JSDate;
  nd_description : string;
  nd_editorial : string;
  nd_issueNumber : JsInt;
  nd_path : string;
  nd_slug : string
}.

(** What [Bun.write] is given as its second argument. *)
Inductive Content (Buffer : Type) : Type :=
| ContentBuffer (b : Buffer)
| ContentJson (d : NewsletterData)
| ContentFile (source : string).

Arguments ContentBuffer {Buffer} b.
Arguments ContentJson {Buffer} d.
Arguments ContentFile {Buffer} source.

(** pdf.js, the canvas backend, Bun's file API and [node:path], as far as
    the helper calls them.  A call that can throw or reject returns its
    error on the left ([Err + _]) or as [Some] error. *)
Class Host : Type := {
  Canvas : Type;
  Buffer : Type;
  Err : Type;
  PDFDoc : Type;
  (** [Bun.file(path).arrayBuffer()] followed by [pdfjs.getDocument]. *)
  getDocument : string -> Err + PDFDoc;
  getPage : PDFDoc -> Z -> Err + Page;
  (** [page.getTextContent()] rejects with this error; when there is
      none it resolves to the [textContent_items] of the page. *)
  getTextContent_rejects : Page -> option Err;
  (** [pdfDoc.cleanup()], awaited: the error it rejects with, if any. *)
  cleanup : PDFDoc -> option Err;
  (** [page.render({canvasContext, viewport}).promise]: the canvas once
      the page is painted on it. *)
  page_render : Page -> Canvas -> Viewport -> Err + Canvas;
  (** [createCanvas(width, height)] with its 2d context; the backend
      throws when it cannot allocate the surface. *)
  createCanvas : float -> float -> Err + Canvas;
  (** [ctx.drawImage(source, sx, sy, sw, sh, dx, dy, dw, dh)] on the
      context of the first canvas. *)
  drawImage :
    Canvas -> Canvas ->
    float -> float -> float -> float ->
    float -> float -> float -> float -> Err + Canvas;
  toBuffer : Canvas -> string -> float -> Err + Buffer;
  path_resolve : string -> string -> string;
  bun_write : string -> Content Buffer -> option Err;
  bun_rm : string -> option Err
}.

(** Sequencing of calls that may throw: the first error ends the rest. *)
Definition andThen {E A B : Type} (r : E + A) (k : A -> E + B) : E + B :=
  match r with
  | inl error => inl error
  | inr a => k a
  end.

(** ** Page rasterizer *)

Definition cropCanvas `{Host} (sourceCanvas : Canvas) (cropRect : Rect)
  : Err + Canvas :=
  andThen (createCanvas (r_width cropRect) (r_height cropRect))
    (fun croppedCanvas =>
       drawImage croppedCanvas sourceCanvas
         (r_x cropRect) (r_y cropRect) (r_width cropRect) (r_height cropRect)
         0%float 0%float (r_width cropRect) (r_height cropRect)).

(** The canvas is created before the [try]; inside it the [catch] branch
    logs and rethrows, so every error is returned as it is.  An object is
    truthy, hence [if (cropRect)] tests presence. *)
Definition renderPageToImage `{Host} (page : Page) (cropRect : option Rect)
  : Err + Buffer :=
  let viewport := getViewport page 2%float in
  andThen (createCanvas (vp_width viewport) (vp_height viewport))
    (fun canvas =>
       andThen (page_render page canvas viewport)
         (fun canvas =>
            match cropRect with
            | Some _ =>
                andThen (cropCanvas canvas COVER_IMAGE_RECT)
                  (fun cropped => toBuffer cropped "image/jpeg" 60%float)
            | None => toBuffer canvas "image/jpeg" 60%float
            end)).

(** The rasterizer with the crop applied to the rectangle it is given;
    only used to show that the difference with [renderPageToImage] can be
    observed. *)
Definition renderPageToImage_supplied `{Host} (page : Page)
  (cropRect : option Rect) : Err + Buffer :=
  let viewport := getViewport page 2%float in
  andThen (createCanvas (vp_width viewport) (vp_height viewport))
    (fun canvas =>
       andThen (page_render page canvas viewport)
         (fun canvas =>
            match cropRect with
            | Some r =>
                andThen (cropCanvas canvas r)
                  (fun cropped => toBuffer cropped "image/jpeg" 60%float)
            | None => toBuffer canvas "image/jpeg" 60%float
            end)).

(** ** Newsletter processor *)

(** One effect on the file system. *)
Inductive FsOp (Buffer : Type) : Type :=
| FsWrite (path : string) (content : Content Buffer)
| FsRemove (path : string).

Arguments FsWrite {Buffer} path content.
Arguments FsRemove {Buffer} path.

Inductive Outcome (E A : Type) : Type :=
| Done (a : A)
| Raised (e : E).

Arguments Done {E A} a.
Arguments Raised {E A} e.

(** An asynchronous computation of the processor: it extends the trace of
    file-system effects, and either completes or raises; what was written
    before an error stays written. *)
Definition Async `{Host} (A : Type) : Type :=
  list (FsOp Buffer) -> Outcome Err A * list (FsOp Buffer).

Definition ret `{Host} {A : Type} (a : A) : Async A :=
  fun trace => (Done a, trace).

Definition bind `{Host} {A B : Type} (m : Async A) (k : A -> Async B)
  : Async B :=
  fun trace =>
    match m trace with
    | (Done a, trace') => k a trace'
    | (Raised e, trace') => (Raised e, trace')
    end.

Notation "x <- m ;; k" := (bind m (fun x => k))
  (at level 61, m at next level, right associativity).
Notation "m ;;; k" := (bind m (fun _ => k))
  (at level 61, right associativity).

(** [await] on a call of the host that may reject. *)
Definition await `{Host} {A : Type} (r : Err + A) : Async A :=
  fun trace =>
    match r with
    | inl e => (Raised e, trace)
    | inr a => (Done a, trace)
    end.

Definition Bun_write `{Host} (path : string) (content : Content Buffer)
  : Async unit :=
  fun trace =>
    match bun_write path content with
    | Some e => (Raised e, trace)
    | None => (Done tt, (trace ++ [FsWrite path content])%list)
    end.

(** [await] on a call of the host that resolves to nothing. *)
Definition settle `{Host} (r : option Err) : Async unit :=
  fun trace =>
    match r with
    | Some e => (Raised e, trace)
    | None => (Done tt, trace)
    end.

(** [getTextInRect] as the asynchronous function it is: it first awaits
    [page.getTextContent()], which may reject; once the items are there
    the text is computed by [getTextInRect]. *)
Definition getTextInRect_async `{Host} (page : Page) (rect : Rect)
  : Async string :=
  settle (getTextContent_rejects page) ;;;
  ret (getTextInRect page rect).

Definition Bun_rm `{Host} (path : string) : Async unit :=
  fun trace =>
    match bun_rm path with
    | Some e => (Raised e, trace)
    | None => (Done tt, (trace ++ [FsRemove path])%list)
    end.

(** [for (const x of xs) { await body(x) }]. *)
Fixpoint forEach `{Host} {A : Type} (xs : list A) (body : A -> Async unit)
  : Async unit :=
  match xs with
  | [] => ret tt
  | x :: rest => body x ;;; forEach rest body
  end.

Record ProcessNewsletterOptions : Set := mkOptions {
  extractPagesToImage : option (list Z);
  outputDataDir : option string;
  outputImageDir : option string;
  outputPdfDir : option string;
  removeAfterProcessing : option bool
}.

(** The default [= {}]. *)
Definition noOptions : ProcessNewsletterOptions :=
  mkOptions None None None None None.

(** [if (dir)] on an optional string: [undefined] and the empty string
    are falsy. *)
Definition truthy_string (dir : option string) : option string :=
  match dir with
  | Some d => if nonempty d then Some d else None
  | None => None
  end.

Record NewsletterText : Set := mkNewsletterText {
  text_date : string;
  text_description : string;
  text_editorial : string;
  text_issue : string
}.

Record NewsletterResult : Set := mkNewsletterResult {
  res_issueDate : option JSDate;
  res_issueNumber : JsInt;
  res_path : string;
  res_slug : string;
  res_text : NewsletterText
}.

(** The argument of [slugify] in [processNewsletter]. *)
Definition slugSource (date : option JSDate) (issueNumber : JsInt) : string :=
  "newsletter-" ++ optional_call_to_string getFullYear date ++ "-"
    ++ optional_call_to_string getMonth date ++ "-"
    ++ JsInt_to_string issueNumber.

(** The block guarded by [if (outputImageDir)]. *)
Definition writeImages `{Host} (pdfDoc : PDFDoc) (firstPage : Page)
  (slug : string) (dir : string) (pages : option (list Z)) : Async unit :=
  let coverImageFileName := slug ++ "-cover.jpg" in
  imageBuffer <- await (renderPageToImage firstPage (Some COVER_IMAGE_RECT)) ;;
  Bun_write (path_resolve dir coverImageFileName) (ContentBuffer imageBuffer) ;;;
  match pages with
  | Some pageNumbers =>
      forEach pageNumbers (fun pageNumber =>
        page <- await (getPage pdfDoc pageNumber) ;;
        imageBuffer <- await (renderPageToImage page None) ;;
        let imageFileName :=
          slug ++ "-page-" ++ Z_to_string pageNumber ++ ".jpg" in
        Bun_write (path_resolve dir imageFileName) (ContentBuffer imageBuffer))
  | None => ret tt
  end.

Definition processNewsletter `{Helpers} `{Host} (filePath : string)
  (options : ProcessNewsletterOptions) : Async NewsletterResult :=
  pdfDoc <- await (getDocument filePath) ;;
  firstPage <- await (getPage pdfDoc 1) ;;
  editorialPage <- await (getPage pdfDoc 3) ;;
  dateText <- getTextInRect_async firstPage dateRect ;;
  description <- getTextInRect_async firstPage descriptionRect ;;
  issueText <- getTextInRect_async firstPage issueRect ;;
  editorialText <- getTextInRect_async editorialPage EDITORIAL_RECT ;;
  let date := parseMonthYear dateText in
  let issueNumber := issueTextToIssueNumber issueText in
  let slug := slugify (slugSource date issueNumber) in
  match truthy_string (outputImageDir options) with
  | Some dir =>
      writeImages pdfDoc firstPage slug dir (extractPagesToImage options)
  | None => ret tt
  end ;;;
  match truthy_string (outputDataDir options) with
  | Some dir =>
      let dataFileName := slug ++ ".json" in
      Bun_write (path_resolve dir dataFileName)
        (ContentJson
           {| nd_date := date;
              nd_description := description;
              nd_editorial := editorialText;
              nd_issueNumber := issueNumber;
              nd_path := "/pdf/" ++ slug ++ ".pdf";
              nd_slug := slug |})
  | None => ret tt
  end ;;;
  match truthy_string (outputPdfDir options) with
  | Some dir =>
      let pdfFileName := slug ++ ".pdf" in
      Bun_write (path_resolve dir pdfFileName) (ContentFile filePath)
  | None => ret tt
  end ;;;
  match removeAfterProcessing options with
  | Some true => Bun_rm filePath
  | _ => ret tt
  end ;;;
  settle (cleanup pdfDoc) ;;;
  ret {| res_issueDate := date;
         res_issueNumber := issueNumber;
         res_path := filePath;
         res_slug := slug;
         res_text :=
           {| text_date := dateText;
              text_description := description;
              text_editorial := editorialText;
              text_issue := issueText |} |}.

(** An effect of processing [filePath] under the slug [slug]: a file
    whose name starts with the slug is written in some directory, or the
    source file is removed. *)
Definition namedFrom `{Host} (slug filePath : string) (op : FsOp Buffer)
  : Prop :=
  match op with
  | FsWrite path _ =>
      exists dir suffix, path = path_resolve dir (slug ++ suffix)
  | FsRemove path => path = filePath
  end.

(** The computation [m] completes from every trace, its result satisfies
    [Q], and every effect it adds satisfies [named]. *)
Definition completes `{Host} {A : Type} (named : FsOp Buffer -> Prop)
  (m : Async A) (Q : A -> Prop) : Prop :=
  forall trace,
    exists a written,
      m trace = (Done a, (trace ++ written)%list) /\
      Forall named written /\ Q a.

(** No call of the canvas backend throws and no rendering rejects. *)
Definition rasterizerSucceeds `{Host} : Prop :=
  (forall width height, exists canvas, createCanvas width height = inr canvas)
  /\ (forall page canvas viewport,
        exists painted, page_render page canvas viewport = inr painted)
  /\ (forall dest source sx sy sw sh dx dy dw dh,
        exists drawn,
          drawImage dest source sx sy sw sh dx dy dw dh = inr drawn)
  /\ (forall canvas mime quality,
        exists buffer, toBuffer canvas mime quality = inr buffer).

(** ** Models of the absent helpers *)

Definition digit_value (c : ascii) : option Z :=
  let n := nat_of_ascii c in
  if ((48 <=? n) && (n <=? 57))%nat then Some (Z.of_nat (n - 48)) else None.

Fixpoint parse_digits (acc : Z) (s : string) : option Z :=
  match s with
  | EmptyString => Some acc
  | String c rest =>
      match digit_value c with
      | Some d => parse_digits (10 * acc + d) rest
      | None => None
      end
  end.

(** A decimal integer: digits, at least one, after an optional minus. *)
Definition parse_integer (s : string) : option Z :=
  match s with
  | EmptyString => None
  | String c rest =>
      if Ascii.eqb c "-"
      then if nonempty rest then option_map Z.opp (parse_digits 0 rest)
           else None
      else parse_digits 0 s
  end.

(** Modelled from the spec: [safeParseInt] of [../number] is not under
    [src/].  Section 4.4 step 3 has the token parsed as an integer, a
    non-numeric or missing token giving an undefined issue number and no
    error. *)
Definition safeParseInt_model (token : option string) : JsInt :=
  match token with
  | None => JsUndefined
  | Some s =>
      match parse_integer s with
      | Some n => JsNumber n
      | None => JsUndefined
      end
  end.

Definition monthNames : list string :=
  ["January"; "February"; "March"; "April"; "May"; "June"; "July";
   "August"; "September"; "October"; "November"; "December"].

Fixpoint position (name : string) (names : list string) (from : Z)
  : option Z :=
  match names with
  | [] => None
  | n :: rest =>
      if String.eqb name n then Some from else position name rest (from + 1)
  end.

(** Modelled from the spec: [parseMonthYear] of [../date] is not under
    [src/].  Section 4.4 step 3 has the date field parsed as month and
    year, a text that does not match giving no date; the month index is
    zero-based (step 4). *)
Definition parseMonthYear_model (text : string) : option JSDate :=
  match split " " text with
  | [month; year] =>
      match position month monthNames 0, parse_digits 0 year with
      | Some m, Some y => if nonempty year then Some (ValidDate y m) else None
      | _, _ => None
      end
  | _ => None
  end.

Definition slug_char (c : ascii) : ascii :=
  let n := nat_of_ascii c in
  if ((65 <=? n) && (n <=? 90))%nat then ascii_of_nat (n + 32)
  else if ((97 <=? n) && (n <=? 122) || (48 <=? n) && (n <=? 57))%nat then c
  else "-"%char.

Fixpoint map_string (f : ascii -> ascii) (s : string) : string :=
  match s with
  | EmptyString => EmptyString
  | String c rest => String (f c) (map_string f rest)
  end.

(** Modelled from the spec: [slugify] of [../string] is not under [src/].
    The glossary has a slug be a filesystem-safe identifier; letters are
    lowered and every other character but a digit becomes a dash. *)
Definition slugify_model (s : string) : string := map_string slug_char s.

#[export] Instance ModelHelpers : Helpers := {|
  parseMonthYear := parseMonthYear_model;
  safeParseInt := safeParseInt_model;
  slugify := slugify_model
|}.

(** The processor's issue-number step as the specification words it: the
    second whitespace-delimited token, parsed as an integer. *)
Definition issueNumber_by_tokens `{Helpers} (issueText : string) : JsInt :=
  safeParseInt (nth_error (tokens issueText) 1).

(** ** A symbolic host *)

(** A canvas as the history of what was done to it. *)
Inductive SymCanvas : Set :=
| Blank (w h : float)
| Painted (items : list Item) (viewport : Viewport) (onto : SymCanvas)
| Drawn (dest source : SymCanvas) (sx sy sw sh dx dy dw dh : float).

(** An encoded image as the canvas, the MIME type and the quality. *)
Definition SymBuffer : Set := (SymCanvas * string * float)%type.

(** A portrait A4 page of 595 by 842 points. *)
Definition a4Viewport (scale : float) : Viewport :=
  {| vp_width := 595 * scale; vp_height := 842 * scale; vp_scale := scale |}.

Definition fragment (s : string) (x y w h : float) : Item :=
  ItemText {| ti_str := s;
              ti_transform := [1; 0; 0; 1; x; y]%float;
              ti_width := Some w;
              ti_height := Some h |}.

Definition marker : Item :=
  ItemMarked {| mc_type := "beginMarkedContent"; mc_id := None |}.

Definition coverPage (dateText : string) : Page :=
  {| textContent_items :=
       [ marker;
         fragment dateText 400 780 150 20;
         fragment " " 400 780 4 0;
         fragment "Issue" 470 700 40 12;
         fragment "42" 520 700 20 12;
         fragment "Village news" 30 60 400 10 ];
     getViewport := a4Viewport |}.

Definition plainPage (s : string) : Page :=
  {| textContent_items := [fragment s 50 700 300 12];
     getViewport := a4Viewport |}.

Definition datedDoc : list Page :=
  [coverPage "March 2024"; plainPage "Contents"; plainPage "Dear readers"].

Definition undatedDoc : list Page :=
  [coverPage "Spring issue"; plainPage "Contents"; plainPage "Dear readers"].

#[export] Instance SymHost : Host := {|
  Canvas := SymCanvas;
  Buffer := SymBuffer;
  Err := string;
  PDFDoc := list Page;
  getDocument := fun path =>
    if String.eqb path "newsletter/march.pdf" then inr datedDoc
    else if String.eqb path "newsletter/spring.pdf" then inr undatedDoc
    else inl "ENOENT";
  getPage := fun doc n =>
    if (1 <=? n)%Z
    then match nth_error doc (Z.to_nat (n - 1)) with
         | Some p => inr p
         | None => inl "Invalid page request"
         end
    else inl "Invalid page request";
  getTextContent_rejects := fun _ => None;
  cleanup := fun _ => None;
  page_render := fun page canvas viewport =>
    inr (Painted (textContent_items page) viewport canvas);
  createCanvas := fun w h => inr (Blank w h);
  drawImage := fun dest source sx sy sw sh dx dy dw dh =>
    inr (Drawn dest source sx sy sw sh dx dy dw dh);
  toBuffer := fun canvas mime quality => inr (canvas, mime, quality);
  path_resolve := fun dir name => dir ++ "/" ++ name;
  bun_write := fun _ _ => None;
  bun_rm := fun _ => None
|}.

(** The body of the page loop of [processNewsletter], for the March
    document and a file named by the page number alone. *)
Definition savePage (pageNumber : Z) : @Async SymHost unit :=
  page <- await (@getPage SymHost datedDoc pageNumber) ;;
  imageBuffer <- await (renderPageToImage page None) ;;
  Bun_write (Z_to_string pageNumber) (ContentBuffer imageBuffer).

(** The same host with a canvas backend that cannot allocate a surface
    without a positive width and height, and a decoder whose [cleanup]
    rejects. *)
Definition FaultyHost : Host := {|
  Canvas := SymCanvas;
  Buffer := SymBuffer;
  Err := string;
  PDFDoc := list Page;
  getDocument := @getDocument SymHost;
  getPage := @getPage SymHost;
  getTextContent_rejects := fun _ => None;
  cleanup := fun _ => Some "cleanup failed";
  page_render := @page_render SymHost;
  createCanvas := fun w h =>
    if (PrimFloat.ltb 0 w && PrimFloat.ltb 0 h)%bool then inr (Blank w h)
    else inl "Create skia surface failed";
  drawImage := @drawImage SymHost;
  toBuffer := @toBuffer SymHost;
  path_resolve := @path_resolve SymHost;
  bun_write := fun _ _ => None;
  bun_rm := fun _ => None
|}.

Definition allOptions : ProcessNewsletterOptions :=
  {| extractPagesToImage := Some [2%Z];
     outputDataDir := Some "out/data";
     outputImageDir := Some "out/img";
     outputPdfDir := Some "out/pdf";
     removeAfterProcessing := Some true |}.

(** ** Single page extraction *)

(** [extractPageToImage]: of the options only [outputImageDir] is read;
    the page is rendered without a crop rectangle. *)
Definition extractPageToImage `{Host} (filePath : string) (pageNumber : Z)
  (options : ProcessNewsletterOptions) : Async Buffer :=
  pdfDoc <- await (getDocument filePath) ;;
  page <- await (getPage pdfDoc pageNumber) ;;
  imageBuffer <- await (renderPageToImage page None) ;;
  match truthy_string (outputImageDir options) with
  | Some dir =>
      let imageFileName := "page-" ++ Z_to_string pageNumber ++ ".jpg" in
      Bun_write (path_resolve dir imageFileName) (ContentBuffer imageBuffer)
  | None => ret tt
  end ;;;
  ret imageBuffer.

(** ** Batch scanner *)

Definition LF : ascii := ascii_of_nat 10.

(** The white space [String.prototype.trim] strips, among the code units
    below 256 that a character of [string] stands for: tab to carriage
    return, space and no-break space. *)
Definition is_trimmed (c : ascii) : bool :=
  let n := nat_of_ascii c in
  ((9 <=? n) && (n <=? 13) || (n =? 32) || (n =? 160))%nat.

Fixpoint trimStart (s : string) : string :=
  match s with
  | EmptyString => EmptyString
  | String c rest => if is_trimmed c then trimStart rest else s
  end.

Fixpoint trimEnd (s : string) : string :=
  match s with
  | EmptyString => EmptyString
  | String c rest =>
      match trimEnd rest with
      | EmptyString => if is_trimmed c then EmptyString else String c EmptyString
      | String d kept => String c (String d kept)
      end
  end.

Definition trim (s : string) : string := trimEnd (trimStart s).

(** Bun's shell and the location of the module. *)
Class Shell `{Host} : Type := {
  import_meta_dir : string;
  (** [Bun.$`command`.text()]: the standard output, or the error of a
      command that fails. *)
  shell_text : string -> Err + string
}.

Definition NEWSLETTERS_DIR `{Shell} : string :=
  path_resolve import_meta_dir "../../../newsletter".

(** The loop of [scanNewsletters]: each file is processed with the
    default options, one after the other; the results are only logged. *)
Definition scanFiles `{Helpers} `{Host} (pdfFiles : list string) : Async unit :=
  forEach pdfFiles (fun file =>
    result <- processNewsletter file noOptions ;;
    ret tt).

Definition scanNewsletters `{Helpers} `{Shell} : Async unit :=
  entries <- await (shell_text ("ls " ++ NEWSLETTERS_DIR ++ "/*.pdf")) ;;
  let pdfFiles := split LF (trim entries) in
  scanFiles pdfFiles.

(** ** Reading traces *)

Definition isWrite `{Host} (op : FsOp Buffer) : bool :=
  match op with
  | FsWrite _ _ => true
  | FsRemove _ => false
  end.

Definition opPath `{Host} (op : FsOp Buffer) : string :=
  match op with
  | FsWrite path _ => path
  | FsRemove path => path
  end.

(** [if (removeAfterProcessing)]. *)
Definition removes (options : ProcessNewsletterOptions) : bool :=
  match removeAfterProcessing options with
  | Some true => true
  | _ => false
  end.

(** The options with another list of pages to extract. *)
Definition withPages (options : ProcessNewsletterOptions)
  (pages : option (list Z)) : ProcessNewsletterOptions :=
  {| extractPagesToImage := pages;
     outputDataDir := outputDataDir options;
     outputImageDir := outputImageDir options;
     outputPdfDir := outputPdfDir options;
     removeAfterProcessing := removeAfterProcessing options |}.

(** Whatever its outcome, [m] only adds writes to the trace, followed by
    [tail] when it completes.  When it raises, [tail] has been added only
    if the error is a [late] one. *)
Definition leaves `{Host} {A : Type} (tail : list (FsOp Buffer))
  (late : Err -> Prop) (m : Async A) : Prop :=
  forall trace,
    exists writes,
      forallb isWrite writes = true /\
      match m trace with
      | (Done _, after) => after = (trace ++ writes ++ tail)%list
      | (Raised e, after) =>
          after = (trace ++ writes)%list \/
          (late e /\ after = (trace ++ writes ++ tail)%list)
      end.

(** [m] completes from every trace with a result that satisfies [Q], and
    the effects it adds are on the files [paths], in that order. *)
Definition succeeds `{Host} {A : Type} (m : Async A) (Q : A -> Prop)
  (paths : list string) : Prop :=
  forall trace,
    exists a written,
      m trace = (Done a, (trace ++ written)%list) /\
      map opPath written = paths /\ Q a.

(** The record a complete run of [processNewsletter] returns, read from
    the first and the third page. *)
Definition expectedResult `{Helpers} (filePath : string)
  (firstPage editorialPage : Page) : NewsletterResult :=
  let date := parseMonthYear (getTextInRect firstPage dateRect) in
  let issueNumber :=
    issueTextToIssueNumber (getTextInRect firstPage issueRect) in
  {| res_issueDate := date;
     res_issueNumber := issueNumber;
     res_path := filePath;
     res_slug := slugify (slugSource date issueNumber);
     res_text :=
       {| text_date := getTextInRect firstPage dateRect;
          text_description := getTextInRect firstPage descriptionRect;
          text_editorial := getTextInRect editorialPage EDITORIAL_RECT;
          text_issue := getTextInRect firstPage issueRect |} |}.

(** The files [processNewsletter] writes under [outputImageDir]. *)
Definition imagePaths `{Host} (slug dir : string) (pages : option (list Z))
  : list string :=
  path_resolve dir (slug ++ "-cover.jpg")
  :: match pages with
     | Some pageNumbers =>
         map (fun n =>
                path_resolve dir (slug ++ "-page-" ++ Z_to_string n ++ ".jpg"))
             pageNumbers
     | None => []
     end.

(** The files a complete run of [processNewsletter] touches, in order. *)
Definition outputPaths `{Host} (slug filePath : string)
  (options : ProcessNewsletterOptions) : list string :=
  (match truthy_string (outputImageDir options) with
   | Some dir => imagePaths slug dir (extractPagesToImage options)
   | None => []
   end
   ++ match truthy_string (outputDataDir options) with
      | Some dir => [path_resolve dir (slug ++ ".json")]
      | None => []
      end
   ++ match truthy_string (outputPdfDir options) with
      | Some dir => [path_resolve dir (slug ++ ".pdf")]
      | None => []
      end
   ++ (if removes options then [filePath] else []))%list.

(** The lines of a listing: every name followed by a line feed. *)
Fixpoint listing (names : list string) : string :=
  match names with
  | [] => EmptyString
  | name :: rest => name ++ String LF (listing rest)
  end.

(** The first and the last character of a string are not stripped by
    [trim]; false for the empty string. *)
Definition startsClean (s : string) : bool :=
  match s with
  | EmptyString => false
  | String c _ => negb (is_trimmed c)
  end.

Fixpoint endsClean (s : string) : bool :=
  match s with
  | EmptyString => false
  | String c EmptyString => negb (is_trimmed c)
  | String _ rest => endsClean rest
  end.

(** Only characters that [trim] strips. *)
Fixpoint blank (s : string) : bool :=
  match s with
  | EmptyString => true
  | String c rest => is_trimmed c && blank rest
  end.

(** A shell over the symbolic host: two newsletters are listed. *)
#[export] Instance SymShell : @Shell SymHost := {|
  import_meta_dir := "/repo/src/helpers/pdf";
  shell_text := fun command =>
    if String.eqb command
         "ls /repo/src/helpers/pdf/../../../newsletter/*.pdf"
    then inr (listing ["newsletter/march.pdf"; "newsletter/spring.pdf"])
    else inl "command failed"
|}.

(** * Properties *)

(** ** Comparisons of binary64 numbers *)

Section Binary64.

Local Open Scope float_scope.

Lemma SFcompare_Eq_sym (a b : spec_float) :
  SFcompare a b = Some Eq -> SFcompare b a = Some Eq.
Proof.
  destruct a as [sa | sa | | sa ma ea], b as [sb | sb | | sb mb eb];
    simpl; try discriminate; try reflexivity;
    try (destruct sa; discriminate); try (destruct sb; discriminate).
  - destruct sa, sb; simpl; congruence.
  - change (Pos.compare_cont Eq ma mb) with (Pos.compare ma mb).
    change (Pos.compare_cont Eq mb ma) with (Pos.compare mb ma).
    destruct sa, sb; try discriminate;
      destruct (Z.compare_spec ea eb) as [e | e | e]; try discriminate;
      subst eb; rewrite Z.compare_refl;
      destruct (Pos.compare_spec ma mb) as [m | m | m]; try discriminate;
      subst mb; rewrite Pos.compare_refl; reflexivity.
Qed.

(** Two numbers that are [===] are not strictly ordered. *)
Lemma strict_eq_not_lt (a b : float) :
  JsNum.strict_eq a b = true -> JsNum.lt b a = false.
Proof.
  unfold JsNum.strict_eq, JsNum.lt.
  rewrite FloatAxioms.eqb_spec, FloatAxioms.ltb_spec. unfold SFeqb, SFltb. intros E.
  destruct (SFcompare (Prim2SF a) (Prim2SF b)) as [[ | | ] | ] eqn:C;
    try discriminate.
  now rewrite (SFcompare_Eq_sym _ _ C).
Qed.

(** The sign of a zero does not matter on the right of a comparison. *)
Lemma SFcompare_zero_r (a : spec_float) (s s' : bool) :
  SFcompare a (S754_zero s) = SFcompare a (S754_zero s').
Proof. destruct a; reflexivity. Qed.

(** Adding a zero does not change how a number compares. *)
Lemma SFcompare_add_zero (a p : spec_float) (s : bool) :
  SFcompare a (SF64add p (S754_zero s)) = SFcompare a p.
Proof.
  destruct p as [sp | sp | | sp mp ep]; simpl; try reflexivity.
  destruct sp, s; simpl; apply SFcompare_zero_r.
Qed.

(** Zero times a number that is neither infinite nor NaN is a zero. *)
Lemma SFmul_zero_l (c : spec_float) :
  (exists s, SF64mul (S754_zero false) c = S754_zero s) \/
  (forall x, SF64mul x c = S754_nan \/
             exists s, SF64mul x c = S754_infinity s).
Proof.
  destruct c as [sc | sc | | sc mc ec]; simpl.
  - left. now exists sc.
  - right. intros [sx | sx | | sx mx ex]; simpl; eauto.
  - right. intros [sx | sx | | sx mx ex]; simpl; eauto.
  - left. now exists sc.
Qed.

(** A number strictly between two others is neither infinite nor NaN. *)
Lemma SFcompare_between (a p b : spec_float) :
  SFcompare a p = Some Lt -> SFcompare p b = Some Lt ->
  p <> S754_nan /\ forall s, p <> S754_infinity s.
Proof.
  intros L R. split.
  - intros E. subst p. destruct a; discriminate.
  - intros s E. subst p.
    destruct s.
    + destruct a as [sa | [ | ] | | sa ma ea]; simpl in L; discriminate.
    + destruct b as [sb | [ | ] | | sb mb eb]; simpl in R; discriminate.
Qed.

(** [x + 0 * c > a] as soon as [a < x * c < b]: a box of width zero
    still has its left edge to the right of [a]. *)
Lemma lt_add_zero_width (a b x c : float) :
  JsNum.lt a (x * c) = true ->
  JsNum.lt (x * c) b = true ->
  JsNum.gt (x * c + PrimFloat.zero * c) a = true.
Proof.
  unfold JsNum.lt, JsNum.gt. rewrite !FloatAxioms.ltb_spec. unfold SFltb.
  rewrite FloatAxioms.add_spec, !FloatAxioms.mul_spec.
  change (Prim2SF PrimFloat.zero) with (S754_zero false).
  destruct (SFcompare (Prim2SF a) (SF64mul (Prim2SF x) (Prim2SF c)))
    as [[ | | ] | ] eqn:L; try discriminate.
  destruct (SFcompare (SF64mul (Prim2SF x) (Prim2SF c)) (Prim2SF b))
    as [[ | | ] | ] eqn:R; try discriminate.
  intros _ _.
  destruct (SFcompare_between _ _ _ L R) as [Hnan Hinf].
  destruct (SFmul_zero_l (Prim2SF c)) as [[s Hz] | Hbad].
  - rewrite Hz, SFcompare_add_zero, L. reflexivity.
  - destruct (Hbad (Prim2SF x)) as [E | [s E]].
    + contradiction.
    + now apply Hinf in E.
Qed.

(** A positive number is truthy and is not [=== 0]. *)
Lemma positive_truthy (h : float) :
  JsNum.lt PrimFloat.zero h = true ->
  JsNum.truthy h = true /\ JsNum.strict_eq h PrimFloat.zero = false.
Proof.
  unfold JsNum.lt, JsNum.truthy, JsNum.strict_eq, is_nan.
  rewrite FloatAxioms.ltb_spec, !FloatAxioms.eqb_spec. unfold SFltb, SFeqb.
  change (Prim2SF PrimFloat.zero) with (S754_zero false).
  destruct (Prim2SF h) as [sh | sh | | sh mh eh]; simpl; try discriminate.
  - destruct sh; try discriminate. intros _. split; reflexivity.
  - destruct sh; try discriminate. intros _.
    rewrite Z.compare_refl, Pos.compare_cont_refl. split; reflexivity.
Qed.

(** A number that is [=== 0] is defaulted to zero by [|| 0]. *)
Lemma or_zero_of_zero (h : float) :
  JsNum.strict_eq h PrimFloat.zero = true ->
  JsNum.or_zero (Some h) = PrimFloat.zero.
Proof.
  unfold JsNum.strict_eq, JsNum.or_zero, JsNum.truthy. intros ->.
  reflexivity.
Qed.

End Binary64.

(** ** Rectangle intersection *)

Section Intersection.

Local Open Scope float_scope.

Variables A B : Rect.

(** The test as four strict comparisons, each start against the other
    rectangle's end. *)
Lemma rectIntersects_true_iff :
  rectIntersects A B = true <->
  JsNum.lt (r_x A) (r_x B + r_width B) = true /\
  JsNum.lt (r_x B) (r_x A + r_width A) = true /\
  JsNum.lt (r_y A) (r_y B + r_height B) = true /\
  JsNum.lt (r_y B) (r_y A + r_height A) = true.
Proof.
  unfold rectIntersects, JsNum.gt, JsNum.lt.
  rewrite !andb_true_iff. tauto.
Qed.

Lemma rectIntersects_false_x1 :
  JsNum.lt (r_x B) (r_x A + r_width A) = false -> rectIntersects A B = false.
Proof.
  unfold rectIntersects, JsNum.gt, JsNum.lt. intros ->.
  now rewrite andb_false_r.
Qed.

Lemma rectIntersects_false_x2 :
  JsNum.lt (r_x A) (r_x B + r_width B) = false -> rectIntersects A B = false.
Proof. unfold rectIntersects. intros ->. reflexivity. Qed.

Lemma rectIntersects_false_y1 :
  JsNum.lt (r_y B) (r_y A + r_height A) = false -> rectIntersects A B = false.
Proof.
  unfold rectIntersects, JsNum.gt, JsNum.lt. intros ->.
  now rewrite andb_false_r.
Qed.

Lemma rectIntersects_false_y2 :
  JsNum.lt (r_y A) (r_y B + r_height B) = false -> rectIntersects A B = false.
Proof.
  unfold rectIntersects. intros ->. now rewrite andb_false_r.
Qed.

End Intersection.

(** C5: [rectIntersects A B] holds exactly when, on both axes, the start
    of each rectangle is strictly less than the end of the other one; and
    two rectangles that share an edge (the end of one [===] the start of
    the other, on either axis and either way round) do not intersect. *)
Theorem rectIntersects_open_interval_overlap (A B : Rect) :
  (rectIntersects A B = true <->
   JsNum.lt (r_x A) (r_x B + r_width B)%float = true /\
   JsNum.lt (r_x B) (r_x A + r_width A)%float = true /\
   JsNum.lt (r_y A) (r_y B + r_height B)%float = true /\
   JsNum.lt (r_y B) (r_y A + r_height A)%float = true) /\
  (JsNum.strict_eq (r_x A + r_width A)%float (r_x B) = true ->
   rectIntersects A B = false) /\
  (JsNum.strict_eq (r_x B + r_width B)%float (r_x A) = true ->
   rectIntersects A B = false) /\
  (JsNum.strict_eq (r_y A + r_height A)%float (r_y B) = true ->
   rectIntersects A B = false) /\
  (JsNum.strict_eq (r_y B + r_height B)%float (r_y A) = true ->
   rectIntersects A B = false).
Proof.
  split; [apply rectIntersects_true_iff | ].
  repeat split; intros E; apply strict_eq_not_lt in E.
  - now apply rectIntersects_false_x1.
  - now apply rectIntersects_false_x2.
  - now apply rectIntersects_false_y1.
  - now apply rectIntersects_false_y2.
Qed.

(** Two boxes side by side, the right edge of the first on the left edge
    of the second, do not intersect. *)
Lemma rectIntersects_open_interval_overlap_witness :
  rectIntersects (mkRect 10 10 0 0) (mkRect 10 10 10 0) = false.
Proof.
  apply (proj1 (proj2
    (rectIntersects_open_interval_overlap
       (mkRect 10 10 0 0) (mkRect 10 10 10 0)))).
  reflexivity.
Defined.

(** C7: the intersection test is symmetric. *)
Theorem rectIntersects_sym (A B : Rect) :
  rectIntersects A B = rectIntersects B A.
Proof.
  unfold rectIntersects, JsNum.gt, JsNum.lt.
  destruct (PrimFloat.ltb (r_x A) (r_x B + r_width B));
    destruct (PrimFloat.ltb (r_x B) (r_x A + r_width A));
    destruct (PrimFloat.ltb (r_y A) (r_y B + r_height B));
    destruct (PrimFloat.ltb (r_y B) (r_y A + r_height A));
    reflexivity.
Qed.

(** ** Coordinate mapper *)

(** C3: the mapper scales x, width and height by the viewport's scale
    [s], and maps y to [(H / s - y) * s - height * s], [H] the viewport's
    pixel height; this is the vertical flip of section 4.1 followed by the
    shift up by the pixel height. *)
Theorem pdfRectToPixelRect_formula (viewport : Viewport) (doc : Rect) :
  let H := vp_height viewport in
  let s := vp_scale viewport in
  let pixel := pdfRectToPixelRect viewport doc in
  r_x pixel = (r_x doc * s)%float /\
  r_width pixel = (r_width doc * s)%float /\
  r_height pixel = (r_height doc * s)%float /\
  r_y pixel = ((H / s - r_y doc) * s - r_height doc * s)%float /\
  pixel = mapper_spec H s doc.
Proof.
  cbv zeta. repeat split.
Qed.

(** On an A4 page rendered at scale 2, a box of height 20 whose origin is
    20 points below the top edge becomes a box of 40 pixels at row 0. *)
Example pdfRectToPixelRect_a4 :
  pdfRectToPixelRect (a4Viewport 2) (mkRect 20 100 30 822)
  = mkRect 40 200 60 0.
Proof. reflexivity. Qed.

(** ** Rectangle text extractor *)

Section Extractor.

Variable viewport : Viewport.
Variable rect : Rect.

Lemma keepItem_text (t : TextItem) :
  keepItem viewport rect (ItemText t) = participates viewport rect t.
Proof.
  unfold keepItem, participates. simpl.
  now destruct (JsNum.strict_eq (JsNum.or_zero (ti_height t)) PrimFloat.zero).
Qed.

(** Filtering the items and reading their strings is filtering the text
    items. *)
Lemma kept_strings (items : list Item) :
  map itemStr (filter (keepItem viewport rect) items)
  = map ti_str (filter (participates viewport rect) (textItems items)).
Proof.
  induction items as [ | [t | m] items IH]; cbn [filter textItems].
  - reflexivity.
  - rewrite keepItem_text.
    destruct (participates viewport rect t); cbn [map itemStr];
      now rewrite IH.
  - change (keepItem viewport rect (ItemMarked m)) with false.
    exact IH.
Qed.

(** An item the filter rejects can be taken out of the page. *)
Lemma filter_rejected (before after : list Item) (item : Item) :
  keepItem viewport rect item = false ->
  filter (keepItem viewport rect) (before ++ item :: after)%list
  = filter (keepItem viewport rect) (before ++ after)%list.
Proof.
  intros R. rewrite !filter_app. simpl. now rewrite R.
Qed.

Lemma keepItem_zero_height (t : TextItem) (h : float) :
  ti_height t = Some h ->
  JsNum.strict_eq h PrimFloat.zero = true ->
  keepItem viewport rect (ItemText t) = false.
Proof.
  intros Hh Hz. unfold keepItem. simpl.
  rewrite Hh, (or_zero_of_zero h Hz). reflexivity.
Qed.

Lemma zeroWidth_or_zero (t : TextItem) :
  zeroWidth t = true -> JsNum.or_zero (ti_width t) = PrimFloat.zero.
Proof.
  unfold zeroWidth. destruct (ti_width t) as [w | ].
  - apply or_zero_of_zero.
  - reflexivity.
Qed.

End Extractor.

(** C1, as the code has it: [getTextInRect] takes the target rectangle as
    it is given, without passing it through the coordinate mapper, and
    returns the space-joined strings, in source order, of exactly the text
    items whose defaulted height is not zero and whose box, mapped with
    the viewport of scale 2.0, intersects that target. *)
Theorem getTextInRect_joins_participating (page : Page) (rect : Rect) :
  getTextInRect page rect
  = join " "
      (map ti_str
         (filter (participates (getViewport page 2%float) rect)
                 (textItems (textContent_items page)))).
Proof.
  unfold getTextInRect. cbv zeta. now rewrite kept_strings.
Qed.

(** C1 does not hold as stated: on the cover page the date fragment lies
    in the date rectangle taken in pixel space, so the code returns it,
    whereas against the date rectangle mapped once more through the
    coordinate mapper nothing is found. *)
Lemma getTextInRect_target_not_mapped :
  getTextInRect (coverPage "March 2024") dateRect = "March 2024" /\
  getTextInRect_contract (coverPage "March 2024") dateRect = "" /\
  pdfRectToPixelRect (a4Viewport 2) dateRect = mkRect 240 746 1570 1250.
Proof. repeat split. Qed.

(** C4: a text fragment whose height is 0 is rejected by the filter,
    whatever the target, its position, its width and its string are: the
    text extracted from a page is the text extracted from the page
    without that fragment. *)
Theorem zero_height_never_contributes
  (before after : list Item) (view : float -> Viewport) (rect : Rect)
  (t : TextItem) (h : float) :
  ti_height t = Some h ->
  JsNum.strict_eq h PrimFloat.zero = true ->
  keepItem (view 2%float) rect (ItemText t) = false /\
  getTextInRect (mkPage (before ++ ItemText t :: after)%list view) rect
  = getTextInRect (mkPage (before ++ after)%list view) rect.
Proof.
  intros Hh Hz.
  pose proof (keepItem_zero_height (view 2%float) rect t h Hh Hz) as R.
  split; [exact R | ].
  unfold getTextInRect. cbn [textContent_items getViewport].
  now rewrite (filter_rejected _ _ before after _ R).
Qed.

(** The zero-height fragment of the cover page sits inside the date
    rectangle and is left out all the same. *)
Lemma zero_height_never_contributes_witness :
  keepItem (a4Viewport 2) dateRect (fragment " " 400 780 4 0) = false /\
  getTextInRect
    (mkPage ([fragment "March" 400 780 150 20]
               ++ fragment " " 400 780 4 0 :: [fragment "2024" 480 780 60 20])
            a4Viewport) dateRect
  = getTextInRect
      (mkPage ([fragment "March" 400 780 150 20]
                 ++ [fragment "2024" 480 780 60 20]) a4Viewport) dateRect.
Proof.
  apply (zero_height_never_contributes
           [fragment "March" 400 780 150 20] [fragment "2024" 480 780 60 20]
           a4Viewport dateRect
           (mkTextItem " " [1; 0; 0; 1; 400; 780]%float (Some 4%float)
                       (Some 0%float))
           0%float);
    reflexivity.
Defined.

(** C8: an item that is not a text item (it has no [str] property) is
    rejected by the filter whatever the target, and the text extracted
    from a page is the text extracted from the page without that item. *)
Theorem marked_content_never_contributes
  (before after : list Item) (view : float -> Viewport) (rect : Rect)
  (m : TextMarkedContent) :
  keepItem (view 2%float) rect (ItemMarked m) = false /\
  getTextInRect (mkPage (before ++ ItemMarked m :: after)%list view) rect
  = getTextInRect (mkPage (before ++ after)%list view) rect.
Proof.
  split; [reflexivity | ].
  unfold getTextInRect. cbn [textContent_items getViewport].
  now rewrite (filter_rejected _ _ before after (ItemMarked m) eq_refl).
Qed.

(** C9: a text fragment of width zero (or without a width) and of positive
    height is kept as soon as its pixel-space origin x lies strictly
    between the left and right edges of the target and its pixel-space
    vertical span strictly overlaps that of the target; alone on a page,
    its string is what [getTextInRect] returns. *)
Theorem zero_width_still_extractable
  (view : float -> Viewport) (rect : Rect) (t : TextItem) (h : float) :
  let box := pdfRectToPixelRect (view 2%float) (itemRect t) in
  zeroWidth t = true ->
  ti_height t = Some h ->
  JsNum.lt PrimFloat.zero h = true ->
  JsNum.lt (r_x rect) (r_x box) = true ->
  JsNum.lt (r_x box) (r_x rect + r_width rect)%float = true ->
  JsNum.lt (r_y box) (r_y rect + r_height rect)%float = true ->
  JsNum.lt (r_y rect) (r_y box + r_height box)%float = true ->
  keepItem (view 2%float) rect (ItemText t) = true /\
  getTextInRect (mkPage [ItemText t] view) rect = ti_str t.
Proof.
  intros box Hw Hh Hpos Hleft Hright Htop Hbottom.
  assert (K : keepItem (view 2%float) rect (ItemText t) = true).
  { destruct (positive_truthy h Hpos) as [Htruthy Hnz].
    unfold keepItem. cbn [itemRect r_height].
    unfold JsNum.or_zero at 1. rewrite Hh, Htruthy, Hnz.
    fold box. apply rectIntersects_true_iff.
    repeat split; try assumption.
    subst box. cbn [pdfRectToPixelRect itemRect r_x r_width] in *.
    rewrite (zeroWidth_or_zero t Hw).
    exact (lt_add_zero_width _ _ _ _ Hleft Hright). }
  split; [exact K | ].
  unfold getTextInRect. cbn [textContent_items getViewport filter].
  rewrite K. reflexivity.
Qed.

(** A fragment without a width, of height 20, placed in the date
    rectangle: its string is extracted. *)
Lemma zero_width_still_extractable_witness :
  keepItem (a4Viewport 2) dateRect
    (ItemText (mkTextItem "|" [1; 0; 0; 1; 400; 780]%float None
                          (Some 20%float))) = true /\
  getTextInRect
    (mkPage [ItemText (mkTextItem "|" [1; 0; 0; 1; 400; 780]%float None
                                  (Some 20%float))] a4Viewport) dateRect
  = "|".
Proof.
  apply (zero_width_still_extractable a4Viewport dateRect
           (mkTextItem "|" [1; 0; 0; 1; 400; 780]%float None (Some 20%float))
           20%float);
    reflexivity.
Defined.

(** ** Page rasterizer *)

(** C2: whichever crop rectangle [renderPageToImage] is given, the JPEG it
    returns is the one obtained by cropping the rendered canvas with
    [COVER_IMAGE_RECT], that is x 60, y 333, width 1068, height 1201; the
    rectangle supplied by the caller is not used.  When a call of the
    canvas backend or the rendering throws, that error is the result, for
    every supplied rectangle alike. *)
Theorem renderPageToImage_crops_with_cover_rect
  `{Host} (page : Page) (cropRect : Rect) :
  let viewport := getViewport page 2%float in
  COVER_IMAGE_RECT
  = {| r_x := 60; r_y := 333; r_width := 1068; r_height := 1201 |} /\
  renderPageToImage page (Some cropRect)
  = renderPageToImage page (Some COVER_IMAGE_RECT) /\
  renderPageToImage page (Some cropRect)
  = match createCanvas (vp_width viewport) (vp_height viewport) with
    | inl error => inl error
    | inr blank =>
        match page_render page blank viewport with
        | inl error => inl error
        | inr canvas =>
            match createCanvas 1068 1201 with
            | inl error => inl error
            | inr croppedCanvas =>
                match drawImage croppedCanvas canvas
                                60 333 1068 1201 0 0 1068 1201 with
                | inl error => inl error
                | inr cropped => toBuffer cropped "image/jpeg" 60%float
                end
            end
        end
    end.
Proof.
cbv zeta. split; [reflexivity | ]. split; [reflexivity | ].
unfold renderPageToImage, cropCanvas, andThen.
cbn [COVER_IMAGE_RECT r_x r_y r_width r_height].
destruct (createCanvas (vp_width (getViewport page 2%float)) _)
  as [error | blank]; [reflexivity | ].
destruct (page_render page blank _) as [error | canvas]; [reflexivity | ].
destruct (createCanvas 1068 1201) as [error | croppedCanvas];
  [reflexivity | ].
destruct (drawImage croppedCanvas canvas _ _ _ _ _ _ _ _); reflexivity.
Qed.

(** On the symbolic host the difference shows: asked for the date
    rectangle, the rasterizer still draws the cover region. *)
Example renderPageToImage_ignores_dateRect :
  renderPageToImage (plainPage "Contents") (Some dateRect)
  = inr (Drawn (Blank 1068 1201)
               (Painted (textContent_items (plainPage "Contents"))
                        (a4Viewport 2) (Blank 1190 1684))
               60 333 1068 1201 0 0 1068 1201, "image/jpeg", 60%float) /\
  renderPageToImage_supplied (plainPage "Contents") (Some dateRect)
  = inr (Drawn (Blank 373 120)
               (Painted (textContent_items (plainPage "Contents"))
                        (a4Viewport 2) (Blank 1190 1684))
               785 97 373 120 0 0 373 120, "image/jpeg", 60%float).
Proof. split; reflexivity. Qed.

(** ** Issue number *)

Section Split.

Variable sep : ascii.

Lemma append_empty_r (s : string) : s ++ "" = s.
Proof. induction s as [ | c s IH]; simpl; congruence. Qed.

(** A string without the separator is its own single field. *)
Lemma split_lacks (s : string) :
  lacks sep s = true -> split sep s = [s].
Proof.
  unfold split. induction s as [ | c s IH]; simpl; intros L.
  - reflexivity.
  - apply andb_true_iff in L. destruct L as [Lc Ls].
    apply negb_true_iff in Lc. rewrite Lc, (IH Ls). reflexivity.
Qed.

(** The first field ends at the first separator. *)
Lemma split_first_field (first rest : string) :
  lacks sep first = true ->
  split sep (first ++ String sep rest) = first :: split sep rest.
Proof.
  unfold split. induction first as [ | c s IH]; simpl; intros L.
  - now rewrite Ascii.eqb_refl.
  - apply andb_true_iff in L. destruct L as [Lc Ls].
    apply negb_true_iff in Lc. rewrite Lc, (IH Ls). reflexivity.
Qed.

(** The second field of [first sep second rest], when [rest] is empty
    or starts with a separator. *)
Lemma split_second_field (first second rest : string) :
  lacks sep first = true ->
  lacks sep second = true ->
  rest = "" \/ (exists r, rest = String sep r) ->
  nth_error (split sep (first ++ String sep (second ++ rest))) 1
  = Some second.
Proof.
  intros L1 L2 R. rewrite (split_first_field _ _ L1). simpl.
  destruct R as [-> | [r ->]].
  - now rewrite append_empty_r, (split_lacks _ L2).
  - now rewrite (split_first_field _ _ L2).
Qed.

End Split.

(** Whatever [safeParseInt] is, it is applied to the second field of the
    split on the space character, or to [undefined] without a space. *)
Lemma issueTextToIssueNumber_field `{Helpers} (issueText : string) :
  (lacks " " issueText = true ->
   issueTextToIssueNumber issueText = safeParseInt None) /\
  (forall first second rest,
      lacks " " first = true ->
      lacks " " second = true ->
      rest = "" \/ (exists r, rest = " " ++ r) ->
      issueText = first ++ " " ++ second ++ rest ->
      issueTextToIssueNumber issueText = safeParseInt (Some second)).
Proof.
  unfold issueTextToIssueNumber. split.
  - intros L. now rewrite (split_lacks _ _ L).
  - intros first second rest L1 L2 R ->.
    change (first ++ " " ++ second ++ rest)
      with (first ++ String " " (second ++ rest)).
    now rewrite (split_second_field " " first second rest L1 L2 R).
Qed.

(** C6, as the code has it: the issue text is split on the space character
    U+0020, empty fields included, and the second field is parsed as an
    integer.  Without a space in the text, or with a second field that is
    not a decimal integer, the result is [undefined]; the function is
    total, so no error is raised. *)
Theorem issueTextToIssueNumber_second_space_field (issueText : string) :
  (lacks " " issueText = true ->
   issueTextToIssueNumber issueText = JsUndefined) /\
  (forall first second rest,
      lacks " " first = true ->
      lacks " " second = true ->
      rest = "" \/ (exists r, rest = " " ++ r) ->
      issueText = first ++ " " ++ second ++ rest ->
      issueTextToIssueNumber issueText
      = match parse_integer second with
        | Some n => JsNumber n
        | None => JsUndefined
        end) /\
  (nullish (issueTextToIssueNumber issueText) = true \/
   exists n, issueTextToIssueNumber issueText = JsNumber n).
Proof.
  destruct (issueTextToIssueNumber_field issueText) as [Hnone Hsome].
  repeat split.
  - exact Hnone.
  - intros first second rest L1 L2 R E.
    now rewrite (Hsome first second rest L1 L2 R E).
  - destruct (issueTextToIssueNumber issueText) as [ | | n].
    + now left.
    + now left.
    + right. now exists n.
Qed.

(** [Issue 42] gives 42; [Issue] alone and [Issue no] give [undefined]. *)
Lemma issueTextToIssueNumber_second_space_field_witness :
  issueTextToIssueNumber "Issue 42" = JsNumber 42 /\
  issueTextToIssueNumber "Issue" = JsUndefined /\
  issueTextToIssueNumber "Issue no" = JsUndefined.
Proof.
  split; [ | split].
  - apply (proj1 (proj2 (issueTextToIssueNumber_second_space_field "Issue 42"))
             "Issue" "42" "");
      solve [reflexivity | now left].
  - apply (proj1 (issueTextToIssueNumber_second_space_field "Issue")).
    reflexivity.
  - apply (proj1 (proj2 (issueTextToIssueNumber_second_space_field "Issue no"))
             "Issue" "no" "");
      solve [reflexivity | now left].
Defined.

(** C6 does not hold as stated: with two spaces between the words, the
    second whitespace-delimited token is [42], but the code parses the
    empty field between the two spaces; a tab is no separator at all. *)
Lemma issueTextToIssueNumber_not_by_tokens :
  tokens "Issue  42" = ["Issue"; "42"] /\
  issueNumber_by_tokens "Issue  42" = JsNumber 42 /\
  split " " "Issue  42" = ["Issue"; ""; "42"] /\
  issueTextToIssueNumber "Issue  42" = JsUndefined /\
  issueNumber_by_tokens (String "I" (String (ascii_of_nat 9) "7"))
  = JsNumber 7 /\
  issueTextToIssueNumber (String "I" (String (ascii_of_nat 9) "7"))
  = JsUndefined.
Proof. repeat split. Qed.

(** ** Newsletter processor *)

Section Completion.

Context `{Host}.
Variable named : FsOp Buffer -> Prop.

Lemma completes_ret {A : Type} (a : A) (Q : A -> Prop) :
  Q a -> completes named (ret a) Q.
Proof.
  intros HQ trace. exists a, []. rewrite app_nil_r. now repeat split.
Qed.

Lemma completes_bind {A B : Type} (m : Async A) (k : A -> Async B)
  (P : A -> Prop) (Q : B -> Prop) :
  completes named m P ->
  (forall a, P a -> completes named (k a) Q) ->
  completes named (bind m k) Q.
Proof.
  intros Hm Hk trace.
  destruct (Hm trace) as (a & w1 & E1 & N1 & Pa).
  destruct (Hk a Pa (trace ++ w1)%list) as (b & w2 & E2 & N2 & Qb).
  exists b, (w1 ++ w2)%list. unfold bind. rewrite E1, E2, app_assoc.
  repeat split; [now apply Forall_app | exact Qb].
Qed.

Lemma completes_await {A : Type} (r : Err + A) (a : A) (Q : A -> Prop) :
  r = inr a -> Q a -> completes named (await r) Q.
Proof.
  intros -> HQ trace. exists a, []. rewrite app_nil_r. now repeat split.
Qed.

Lemma completes_write (path : string) (content : Content Buffer) :
  bun_write path content = None ->
  named (FsWrite path content) ->
  completes named (Bun_write path content) (fun _ => True).
Proof.
  intros W N trace. exists tt, [FsWrite path content].
  unfold Bun_write. rewrite W. repeat split. now constructor.
Qed.

Lemma completes_rm (path : string) :
  bun_rm path = None ->
  named (FsRemove path) ->
  completes named (Bun_rm path) (fun _ => True).
Proof.
  intros W N trace. exists tt, [FsRemove path].
  unfold Bun_rm. rewrite W. repeat split. now constructor.
Qed.

Lemma completes_forEach {A : Type} (xs : list A) (body : A -> Async unit) :
  (forall x, In x xs -> completes named (body x) (fun _ => True)) ->
  completes named (forEach xs body) (fun _ => True).
Proof.
  induction xs as [ | x xs IH]; intros Hbody; cbn [forEach].
  - now apply completes_ret.
  - apply completes_bind with (P := fun _ => True).
    + apply Hbody. now left.
    + intros _ _. apply IH. intros y Hy. apply Hbody. now right.
Qed.

Lemma completes_settle (r : option Err) :
  r = None -> completes named (settle r) (fun _ => True).
Proof.
  intros -> trace. exists tt, []. rewrite app_nil_r. now repeat split.
Qed.

Lemma completes_getTextInRect (page : Page) (rect : Rect) :
  getTextContent_rejects page = None ->
  completes named (getTextInRect_async page rect)
    (fun text => text = getTextInRect page rect).
Proof.
  intros E. unfold getTextInRect_async.
  apply completes_bind with (P := fun _ => True).
  - now apply completes_settle.
  - intros _ _. now apply completes_ret.
Qed.

(** The rasterizer returns a buffer as soon as the canvas backend and the
    rendering succeed. *)
Lemma renderPageToImage_returns (page : Page) (cropRect : option Rect) :
  rasterizerSucceeds ->
  exists buffer, renderPageToImage page cropRect = inr buffer.
Proof.
  intros (Hcreate & Hrender & Hdraw & Hbuffer).
  unfold renderPageToImage, cropCanvas, andThen. cbv zeta.
  destruct (Hcreate (vp_width (getViewport page 2%float))
                    (vp_height (getViewport page 2%float))) as [blank ->].
  destruct (Hrender page blank (getViewport page 2%float)) as [canvas ->].
  destruct cropRect as [r | ]; [ | apply Hbuffer].
  destruct (Hcreate (r_width COVER_IMAGE_RECT) (r_height COVER_IMAGE_RECT))
    as [croppedCanvas ->].
  destruct (Hdraw croppedCanvas canvas
              (r_x COVER_IMAGE_RECT) (r_y COVER_IMAGE_RECT)
              (r_width COVER_IMAGE_RECT) (r_height COVER_IMAGE_RECT)
              0%float 0%float
              (r_width COVER_IMAGE_RECT) (r_height COVER_IMAGE_RECT))
    as [cropped ->].
  apply Hbuffer.
Qed.

End Completion.

Section Success.

Context `{Host}.

Lemma succeeds_ret {A : Type} (a : A) (Q : A -> Prop) :
  Q a -> succeeds (ret a) Q [].
Proof.
intros HQ trace. exists a, []. rewrite app_nil_r. now repeat split.
Qed.

Lemma succeeds_await {A : Type} (r : Err + A) (a : A) (Q : A -> Prop) :
  r = inr a -> Q a -> succeeds (await r) Q [].
Proof.
intros -> HQ trace. exists a, []. rewrite app_nil_r. now repeat split.
Qed.

Lemma succeeds_bind {A B : Type} (m : Async A) (k : A -> Async B)
  (P : A -> Prop) (Q : B -> Prop) (p1 p2 : list string) :
  succeeds m P p1 ->
  (forall a, P a -> succeeds (k a) Q p2) ->
  succeeds (bind m k) Q (p1 ++ p2)%list.
Proof.
intros Hm Hk trace.
destruct (Hm trace) as (a & w1 & E1 & M1 & Pa).
destruct (Hk a Pa (trace ++ w1)%list) as (b & w2 & E2 & M2 & Qb).
exists b, (w1 ++ w2)%list. unfold bind. rewrite E1, E2, app_assoc.
repeat split; [ | exact Qb]. now rewrite map_app, M1, M2.
Qed.

Lemma succeeds_write (path : string) (content : Content Buffer) :
  bun_write path content = None ->
  succeeds (Bun_write path content) (fun _ => True) [path].
Proof.
intros W trace. exists tt, [FsWrite path content].
unfold Bun_write. rewrite W. now repeat split.
Qed.

Lemma succeeds_rm (path : string) :
  bun_rm path = None -> succeeds (Bun_rm path) (fun _ => True) [path].
Proof.
intros W trace. exists tt, [FsRemove path].
unfold Bun_rm. rewrite W. now repeat split.
Qed.

(** A loop whose every round touches one file touches them in the order
    of the list. *)
Lemma succeeds_forEach {A : Type} (xs : list A) (body : A -> Async unit)
  (file : A -> string) :
  (forall x, In x xs -> succeeds (body x) (fun _ => True) [file x]) ->
  succeeds (forEach xs body) (fun _ => True) (map file xs).
Proof.
induction xs as [ | x xs IH]; intros Hbody; cbn [forEach map].
- now apply succeeds_ret.
- change (file x :: map file xs) with ([file x] ++ map file xs)%list.
  apply succeeds_bind with (P := fun _ => True).
  + apply Hbody. now left.
  + intros _ _. apply IH. intros y Hy. apply Hbody. now right.
Qed.

Lemma succeeds_settle (r : option Err) :
  r = None -> succeeds (settle r) (fun _ => True) [].
Proof.
intros -> trace. exists tt, []. rewrite app_nil_r. now repeat split.
Qed.

Lemma succeeds_getTextInRect (page : Page) (rect : Rect) :
  getTextContent_rejects page = None ->
  succeeds (getTextInRect_async page rect)
    (fun text => text = getTextInRect page rect) [].
Proof.
intros E. unfold getTextInRect_async.
apply (succeeds_bind _ _ (fun _ => True) _ [] []).
- now apply succeeds_settle.
- intros _ _. now apply succeeds_ret.
Qed.

End Success.

Section CompleteRun.

Context `{Helpers} `{Host}.

Variable filePath : string.
Variable options : ProcessNewsletterOptions.
Variable pdfDoc : PDFDoc.
Variables firstPage editorialPage : Page.

Hypothesis document_loads : getDocument filePath = inr pdfDoc.
Hypothesis first_page : getPage pdfDoc 1 = inr firstPage.
Hypothesis third_page : getPage pdfDoc 3 = inr editorialPage.
Hypothesis first_text : getTextContent_rejects firstPage = None.
Hypothesis third_text : getTextContent_rejects editorialPage = None.
Hypothesis rasterizer_ok : rasterizerSucceeds.
Hypothesis pages_exist :
  forall n pages,
    extractPagesToImage options = Some pages -> In n pages ->
    exists p, getPage pdfDoc n = inr p.
Hypothesis write_ok : forall path content, bun_write path content = None.
Hypothesis rm_ok : forall path, bun_rm path = None.
Hypothesis cleanup_ok : cleanup pdfDoc = None.

Let slug : string := res_slug (expectedResult filePath firstPage editorialPage).

Lemma slug_named (dir suffix : string) (content : Content Buffer) :
  namedFrom slug filePath (FsWrite (path_resolve dir (slug ++ suffix)) content).
Proof. now exists dir, suffix. Qed.

Lemma writeImages_completes (dir : string) :
  completes (namedFrom slug filePath)
    (writeImages pdfDoc firstPage slug dir (extractPagesToImage options))
    (fun _ => True).
Proof.
unfold writeImages. cbv zeta.
destruct (renderPageToImage_returns firstPage (Some COVER_IMAGE_RECT)
            rasterizer_ok) as [cover Ecover].
apply completes_bind with (P := fun b => True).
{ now apply completes_await with (a := cover). }
intros b _.
apply completes_bind with (P := fun _ => True).
{ apply completes_write; [apply write_ok | apply slug_named]. }
intros _ _.
destruct (extractPagesToImage options) as [pageNumbers | ] eqn:E.
- apply completes_forEach. intros n Hn.
  destruct (pages_exist n pageNumbers eq_refl Hn) as [p Ep].
  destruct (renderPageToImage_returns p None rasterizer_ok)
    as [image Eimage].
  apply completes_bind with (P := fun q => q = p).
  { now apply completes_await with (a := p). }
  intros q ->.
  apply completes_bind with (P := fun _ => True).
  { now apply completes_await with (a := image). }
  intros image' _.
  apply completes_write; [apply write_ok | apply slug_named].
- now apply completes_ret.
Qed.

Lemma processNewsletter_completes :
  completes (namedFrom slug filePath)
    (processNewsletter filePath options)
    (fun result => result = expectedResult filePath firstPage editorialPage).
Proof.
unfold processNewsletter.
apply completes_bind with (P := fun d => d = pdfDoc).
{ now apply completes_await with (a := pdfDoc). }
intros d ->.
apply completes_bind with (P := fun p => p = firstPage).
{ now apply completes_await with (a := firstPage). }
intros p ->.
apply completes_bind with (P := fun p => p = editorialPage).
{ now apply completes_await with (a := editorialPage). }
intros p ->.
apply completes_bind
  with (P := fun text => text = getTextInRect firstPage dateRect).
{ now apply completes_getTextInRect. }
intros dateText ->.
apply completes_bind
  with (P := fun text => text = getTextInRect firstPage descriptionRect).
{ now apply completes_getTextInRect. }
intros description ->.
apply completes_bind
  with (P := fun text => text = getTextInRect firstPage issueRect).
{ now apply completes_getTextInRect. }
intros issueText ->.
apply completes_bind
  with (P := fun text => text = getTextInRect editorialPage EDITORIAL_RECT).
{ now apply completes_getTextInRect. }
intros editorialText ->.
cbv zeta.
apply completes_bind with (P := fun _ => True).
{ destruct (truthy_string (outputImageDir options)) as [dir | ].
  - apply writeImages_completes.
  - now apply completes_ret. }
intros _ _.
apply completes_bind with (P := fun _ => True).
{ destruct (truthy_string (outputDataDir options)) as [dir | ].
  - apply completes_write; [apply write_ok | apply slug_named].
  - now apply completes_ret. }
intros _ _.
apply completes_bind with (P := fun _ => True).
{ destruct (truthy_string (outputPdfDir options)) as [dir | ].
  - apply completes_write; [apply write_ok | apply slug_named].
  - now apply completes_ret. }
intros _ _.
apply completes_bind with (P := fun _ => True).
{ destruct (removeAfterProcessing options) as [[ | ] | ].
  - apply completes_rm; [apply rm_ok | reflexivity].
  - now apply completes_ret.
  - now apply completes_ret. }
intros _ _.
apply completes_bind with (P := fun _ => True).
{ now apply completes_settle. }
intros _ _.
now apply completes_ret.
Qed.

Lemma writeImages_succeeds (dir : string) :
  succeeds (writeImages pdfDoc firstPage slug dir (extractPagesToImage options))
    (fun _ => True) (imagePaths slug dir (extractPagesToImage options)).
Proof.
unfold writeImages, imagePaths. cbv zeta.
destruct (renderPageToImage_returns firstPage (Some COVER_IMAGE_RECT)
            rasterizer_ok) as [cover Ecover].
apply (succeeds_bind _ _ (fun _ => True) _ [] _).
{ now apply succeeds_await with (a := cover). }
intros b _.
apply (succeeds_bind _ _ (fun _ => True) _ [_] _).
{ apply succeeds_write, write_ok. }
intros _ _.
destruct (extractPagesToImage options) as [pageNumbers | ] eqn:E.
- apply succeeds_forEach. intros n Hn.
  destruct (pages_exist n pageNumbers eq_refl Hn) as [p Ep].
  destruct (renderPageToImage_returns p None rasterizer_ok)
    as [image Eimage].
  apply (succeeds_bind _ _ (fun q => q = p) _ [] _).
  { now apply succeeds_await with (a := p). }
  intros q ->.
  apply (succeeds_bind _ _ (fun _ => True) _ [] _).
  { now apply succeeds_await with (a := image). }
  intros image' _.
  apply succeeds_write, write_ok.
- now apply succeeds_ret.
Qed.

Lemma processNewsletter_succeeds :
  succeeds (processNewsletter filePath options)
    (fun result => result = expectedResult filePath firstPage editorialPage)
    (outputPaths slug filePath options).
Proof.
unfold processNewsletter, outputPaths.
apply (succeeds_bind _ _ (fun d => d = pdfDoc) _ [] _).
{ now apply succeeds_await with (a := pdfDoc). }
intros d ->.
apply (succeeds_bind _ _ (fun p => p = firstPage) _ [] _).
{ now apply succeeds_await with (a := firstPage). }
intros p ->.
apply (succeeds_bind _ _ (fun p => p = editorialPage) _ [] _).
{ now apply succeeds_await with (a := editorialPage). }
intros p ->.
apply (succeeds_bind _ _
         (fun text => text = getTextInRect firstPage dateRect) _ [] _).
{ now apply succeeds_getTextInRect. }
intros dateText ->.
apply (succeeds_bind _ _
         (fun text => text = getTextInRect firstPage descriptionRect) _ [] _).
{ now apply succeeds_getTextInRect. }
intros description ->.
apply (succeeds_bind _ _
         (fun text => text = getTextInRect firstPage issueRect) _ [] _).
{ now apply succeeds_getTextInRect. }
intros issueText ->.
apply (succeeds_bind _ _
         (fun text => text = getTextInRect editorialPage EDITORIAL_RECT)
         _ [] _).
{ now apply succeeds_getTextInRect. }
intros editorialText ->.
cbv zeta.
apply succeeds_bind with (P := fun _ => True).
{ destruct (truthy_string (outputImageDir options)) as [dir | ].
  - apply writeImages_succeeds.
  - now apply succeeds_ret. }
intros _ _.
apply succeeds_bind with (P := fun _ => True).
{ destruct (truthy_string (outputDataDir options)) as [dir | ].
  - apply succeeds_write, write_ok.
  - now apply succeeds_ret. }
intros _ _.
apply succeeds_bind with (P := fun _ => True).
{ destruct (truthy_string (outputPdfDir options)) as [dir | ].
  - apply succeeds_write, write_ok.
  - now apply succeeds_ret. }
intros _ _.
rewrite <- (app_nil_r (if removes options then [filePath] else [])).
apply succeeds_bind with (P := fun _ => True).
{ unfold removes. destruct (removeAfterProcessing options) as [[ | ] | ].
  - apply succeeds_rm, rm_ok.
  - now apply succeeds_ret.
  - now apply succeeds_ret. }
intros _ _.
apply (succeeds_bind _ _ (fun _ => True) _ [] []).
{ now apply succeeds_settle. }
intros _ _.
now apply succeeds_ret.
Qed.

(** A complete run: its result, the names of what it writes and the
    files it touches, in order. *)
Lemma processNewsletter_run (trace : list (FsOp Buffer)) :
  exists written,
    processNewsletter filePath options trace
    = (Done (expectedResult filePath firstPage editorialPage),
       (trace ++ written)%list) /\
    Forall (namedFrom slug filePath) written /\
    map opPath written = outputPaths slug filePath options.
Proof.
destruct (processNewsletter_completes trace) as (r1 & w1 & E1 & N1 & ->).
destruct (processNewsletter_succeeds trace) as (r2 & w2 & E2 & M2 & ->).
exists w1. split; [exact E1 | ]. split; [exact N1 | ].
rewrite E1 in E2. injection E2 as E2. apply app_inv_head in E2.
now subst w2.
Qed.

End CompleteRun.



(** What the spring issue leaves on disk. *)
Example processNewsletter_spring_paths :
  map (fun op => match op with
                 | FsWrite path _ => path
                 | FsRemove path => path
                 end)
      (snd (processNewsletter "newsletter/spring.pdf" allOptions []))
  = [ "out/img/newsletter-undefined-undefined-42-cover.jpg";
      "out/img/newsletter-undefined-undefined-42-page-2.jpg";
      "out/data/newsletter-undefined-undefined-42.json";
      "out/pdf/newsletter-undefined-undefined-42.pdf";
      "newsletter/spring.pdf" ].
Proof. reflexivity. Qed.

(** With a date that parses, the slug carries the year and the
    zero-based month. *)
Example processNewsletter_march_slug :
  fst (processNewsletter "newsletter/march.pdf" noOptions [])
  = Done {| res_issueDate := Some (ValidDate 2024 2);
            res_issueNumber := JsNumber 42;
            res_path := "newsletter/march.pdf";
            res_slug := "newsletter-2024-2-42";
            res_text :=
              {| text_date := "March 2024";
                 text_description := "Village news";
                 text_editorial := "Dear readers";
                 text_issue := "Issue 42" |} |}.
Proof. reflexivity. Qed.

(** On a host whose [cleanup] rejects, the run raises after everything
    was written and the source removed; on a page without height the
    canvas cannot be created and nothing is rendered. *)
Example processNewsletter_faulty_host :
  @processNewsletter ModelHelpers FaultyHost "newsletter/spring.pdf"
    (mkOptions None None None (Some "out/pdf") (Some true)) []
  = (Raised "cleanup failed",
     [FsWrite "out/pdf/newsletter-undefined-undefined-42.pdf"
              (ContentFile "newsletter/spring.pdf");
      FsRemove "newsletter/spring.pdf"]) /\
  @renderPageToImage FaultyHost
    (mkPage [] (fun scale => mkViewport (595 * scale) 0 scale)) None
  = inl "Create skia surface failed".
Proof. split; reflexivity. Qed.


(** * Further properties *)

(** ** Effects of a computation, whatever its outcome *)

Section Effects.

Context `{Host}.

Variable late : Err -> Prop.

Lemma leaves_ret {A : Type} (a : A) : leaves [] late (ret a).
Proof.
intros trace. exists []. split; [reflexivity | ].
cbn. now rewrite app_nil_r.
Qed.

Lemma leaves_await {A : Type} (r : Err + A) : leaves [] late (await r).
Proof.
intros trace. exists []. split; [reflexivity | ].
destruct r; cbn; [left | ]; now rewrite app_nil_r.
Qed.

Lemma leaves_settle (r : option Err) : leaves [] late (settle r).
Proof.
intros trace. exists []. split; [reflexivity | ].
destruct r; cbn; [left | ]; now rewrite app_nil_r.
Qed.

Lemma leaves_write (path : string) (content : Content Buffer) :
  leaves [] late (Bun_write path content).
Proof.
intros trace. unfold Bun_write.
destruct (bun_write path content).
- exists []. split; [reflexivity | ]. left. now rewrite app_nil_r.
- exists [FsWrite path content]. split; [reflexivity | ].
  now rewrite app_nil_r.
Qed.

(** After a computation that only writes, the rest decides what is left
    at the end. *)
Lemma leaves_bind {A B : Type} (tail : list (FsOp Buffer))
  (m : Async A) (k : A -> Async B) :
  leaves [] (fun _ => False) m ->
  (forall a, leaves tail late (k a)) ->
  leaves tail late (bind m k).
Proof.
intros Hm Hk trace. unfold bind.
destruct (Hm trace) as (w1 & F1 & E1).
destruct (m trace) as [[a | e] after].
- rewrite app_nil_r in E1. subst after.
  destruct (Hk a (trace ++ w1)%list) as (w2 & F2 & E2).
  exists (w1 ++ w2)%list. split.
  + rewrite forallb_app, F1, F2. reflexivity.
  + destruct (k a (trace ++ w1)%list) as [[b | e] after].
    * subst after. now rewrite <- !app_assoc.
    * destruct E2 as [-> | [L ->]]; [left | right; split; [exact L | ]];
        now rewrite <- !app_assoc.
- exists w1. split; [exact F1 | ].
  destruct E1 as [-> | [[] _]]. now left.
Qed.

End Effects.

Section WritesOnly.

Context `{Host}.

Let never : Err -> Prop := fun _ => False.

Lemma writes_forEach {A : Type} (xs : list A) (body : A -> Async unit) :
  (forall x, leaves [] never (body x)) -> leaves [] never (forEach xs body).
Proof.
intros Hbody. induction xs as [ | x xs IH]; cbn [forEach].
- apply leaves_ret.
- apply leaves_bind; [apply Hbody | intros _; exact IH].
Qed.

Lemma writes_when {A : Type} (dir : option A) (body : A -> Async unit) :
  (forall d, leaves [] never (body d)) ->
  leaves [] never match dir with Some d => body d | None => ret tt end.
Proof.
intros Hbody. destruct dir; [apply Hbody | apply leaves_ret].
Qed.

Lemma writes_getTextInRect (page : Page) (rect : Rect) :
  leaves [] never (getTextInRect_async page rect).
Proof.
unfold getTextInRect_async.
apply leaves_bind; [apply leaves_settle | intros _; apply leaves_ret].
Qed.

Lemma writes_writeImages (pdfDoc : PDFDoc) (firstPage : Page)
  (slug dir : string) (pages : option (list Z)) :
  leaves [] never (writeImages pdfDoc firstPage slug dir pages).
Proof.
unfold writeImages. cbv zeta.
apply leaves_bind; [apply leaves_await | intros cover].
apply leaves_bind; [apply leaves_write | intros _].
destruct pages as [pageNumbers | ]; [ | apply leaves_ret].
apply writes_forEach. intros n.
apply leaves_bind; [apply leaves_await | intros page].
apply leaves_bind; [apply leaves_await | intros image].
apply leaves_write.
Qed.

(** The last three steps of [processNewsletter]: the removal, the
    cleanup and the return. *)
Lemma leaves_remove_cleanup_return {A : Type} (filePath : string)
  (options : ProcessNewsletterOptions) (pdfDoc : PDFDoc) (result : A) :
  leaves (if removes options then [FsRemove filePath] else [])
    (fun e => removes options = true /\ cleanup pdfDoc = Some e)
    (match removeAfterProcessing options with
     | Some true => Bun_rm filePath
     | _ => ret tt
     end ;;; settle (cleanup pdfDoc) ;;; ret result).
Proof.
intros trace. exists []. split; [reflexivity | ].
unfold removes, bind, Bun_rm, settle, ret.
destruct (removeAfterProcessing options) as [[ | ] | ]; cbn.
- destruct (bun_rm filePath); cbn; [left; now rewrite app_nil_r | ].
  destruct (cleanup pdfDoc); cbn; [right; now split | reflexivity].
- destruct (cleanup pdfDoc); cbn; [left | ]; now rewrite app_nil_r.
- destruct (cleanup pdfDoc); cbn; [left | ]; now rewrite app_nil_r.
Qed.

End WritesOnly.

(** ** Newsletter processor: effects *)

(** X1: without an output directory (absent or the empty string) and
    without [removeAfterProcessing], [processNewsletter] leaves the file
    system as it is, whether it completes or raises. *)
Theorem processNewsletter_no_outputs_no_effects
  `{Helpers} `{Host} (filePath : string) (options : ProcessNewsletterOptions)
  (trace : list (FsOp Buffer)) :
  truthy_string (outputImageDir options) = None ->
  truthy_string (outputDataDir options) = None ->
  truthy_string (outputPdfDir options) = None ->
  removes options = false ->
  snd (processNewsletter filePath options trace) = trace.
Proof.
intros Himage Hdata Hpdf Hremove.
unfold processNewsletter, getTextInRect_async, bind, await, settle, ret.
destruct (getDocument filePath) as [e | pdfDoc]; [reflexivity | ].
destruct (getPage pdfDoc 1) as [e | firstPage]; [reflexivity | ].
destruct (getPage pdfDoc 3) as [e | editorialPage]; [reflexivity | ].
destruct (getTextContent_rejects firstPage); [reflexivity | ].
destruct (getTextContent_rejects editorialPage); [reflexivity | ].
cbv zeta. rewrite Himage, Hdata, Hpdf.
unfold removes in Hremove.
destruct (removeAfterProcessing options) as [[ | ] | ];
  try discriminate; destruct (cleanup pdfDoc); reflexivity.
Qed.

(** Empty strings for the three directories count as no directory. *)
Lemma processNewsletter_no_outputs_no_effects_witness :
  snd (processNewsletter "newsletter/march.pdf"
         (mkOptions (Some [2%Z]) (Some "") (Some "") (Some "") (Some false))
         [FsRemove "earlier"])
  = [FsRemove "earlier"].
Proof.
apply (@processNewsletter_no_outputs_no_effects ModelHelpers SymHost);
  reflexivity.
Defined.

(** X2: the pages to extract are only looked at under [outputImageDir];
    without an image directory the run is the same whatever
    [extractPagesToImage] holds. *)
Theorem processNewsletter_pages_need_image_dir
  `{Helpers} `{Host} (filePath : string) (options : ProcessNewsletterOptions)
  (pages : option (list Z)) (trace : list (FsOp Buffer)) :
  truthy_string (outputImageDir options) = None ->
  processNewsletter filePath (withPages options pages) trace
  = processNewsletter filePath options trace.
Proof.
intros Himage. unfold processNewsletter.
cbn [withPages outputImageDir outputDataDir outputPdfDir
     removeAfterProcessing extractPagesToImage].
now rewrite Himage.
Qed.

Lemma processNewsletter_pages_need_image_dir_witness :
  processNewsletter "newsletter/march.pdf"
    (withPages (mkOptions None (Some "out/data") None None None)
               (Some [7%Z; 99%Z])) []
  = processNewsletter "newsletter/march.pdf"
      (mkOptions None (Some "out/data") None None None) [].
Proof.
apply (@processNewsletter_pages_need_image_dir ModelHelpers SymHost).
reflexivity.
Defined.


(** X4: a file that does not load, or a document without a page 1 or a
    page 3, makes [processNewsletter] raise that error before anything is
    written, whatever the options. *)
Theorem processNewsletter_fails_early
  `{Helpers} `{Host} (filePath : string) (options : ProcessNewsletterOptions)
  (trace : list (FsOp Buffer)) (e : Err) :
  getDocument filePath = inl e \/
  (exists pdfDoc,
      getDocument filePath = inr pdfDoc /\
      (getPage pdfDoc 1 = inl e \/
       exists firstPage,
         getPage pdfDoc 1 = inr firstPage /\ getPage pdfDoc 3 = inl e)) ->
  processNewsletter filePath options trace = (Raised e, trace).
Proof.
unfold processNewsletter, bind, await.
intros [E | (pdfDoc & E & [E1 | (firstPage & E1 & E3)])].
- now rewrite E.
- now rewrite E, E1.
- now rewrite E, E1, E3.
Qed.

Lemma processNewsletter_fails_early_witness :
  processNewsletter "newsletter/lost.pdf" allOptions []
  = (Raised "ENOENT", []).
Proof.
apply (@processNewsletter_fails_early ModelHelpers SymHost).
left. reflexivity.
Defined.

(** ** Page rasterizer and single page extraction *)

(** X5: [renderPageToImage] raises exactly the error of the first call
    that throws, in this order: the creation of the page canvas (before
    which nothing is rendered), [page.render], then for a cropped image
    the creation of the crop canvas and [drawImage], then [toBuffer].
    No error is swallowed or replaced. *)
Theorem renderPageToImage_fails_iff
  `{Host} (page : Page) (cropRect : option Rect) (e : Err) :
  let viewport := getViewport page 2%float in
  renderPageToImage page cropRect = inl e <->
  createCanvas (vp_width viewport) (vp_height viewport) = inl e \/
  exists blank,
    createCanvas (vp_width viewport) (vp_height viewport) = inr blank /\
    (page_render page blank viewport = inl e \/
     exists canvas,
       page_render page blank viewport = inr canvas /\
       match cropRect with
       | None => toBuffer canvas "image/jpeg" 60%float = inl e
       | Some _ =>
           createCanvas 1068 1201 = inl e \/
           exists croppedCanvas,
             createCanvas 1068 1201 = inr croppedCanvas /\
             (drawImage croppedCanvas canvas 60 333 1068 1201 0 0 1068 1201
              = inl e \/
              exists cropped,
                drawImage croppedCanvas canvas
                          60 333 1068 1201 0 0 1068 1201 = inr cropped /\
                toBuffer cropped "image/jpeg" 60%float = inl e)
       end).
Proof.
cbv zeta. unfold renderPageToImage, cropCanvas, andThen.
cbn [COVER_IMAGE_RECT r_x r_y r_width r_height].
destruct (createCanvas (vp_width (getViewport page 2%float)) _)
  as [e0 | blank].
{ split.
  - intros E. left. now injection E as ->.
  - intros [E | (b & E & _)]; [now injection E as -> | discriminate]. }
split.
- intros E. right. exists blank. split; [reflexivity | ].
  destruct (page_render page blank _) as [e1 | canvas].
  { left. now injection E as ->. }
  right. exists canvas. split; [reflexivity | ].
  destruct cropRect as [r | ]; [ | exact E].
  destruct (createCanvas 1068 1201) as [e2 | croppedCanvas].
  { left. now injection E as ->. }
  right. exists croppedCanvas. split; [reflexivity | ].
  destruct (drawImage croppedCanvas canvas _ _ _ _ _ _ _ _)
    as [e3 | cropped].
  { left. now injection E as ->. }
  right. exists cropped. now split.
- intros [E | (b & Eb & Hrest)]; [discriminate | ].
  injection Eb as <-.
  destruct Hrest as [-> | (canvas & -> & Hrest)]; [reflexivity | ].
  destruct cropRect as [r | ]; [ | exact Hrest].
  destruct Hrest as [-> | (croppedCanvas & -> & Hrest)]; [reflexivity | ].
  destruct Hrest as [-> | (cropped & -> & Hrest)]; [reflexivity | ].
  exact Hrest.
Qed.

(** X6: [extractPageToImage] is all or nothing.  When it raises, nothing
    was written.  When it completes, the image it returns is the page
    rendered without cropping, and the trace grows by the single file
    [page-<N>.jpg] holding that image when [outputImageDir] is set, by
    nothing otherwise; the name does not depend on the source file. *)
Theorem extractPageToImage_all_or_nothing
  `{Host} (filePath : string) (pageNumber : Z)
  (options : ProcessNewsletterOptions) (trace : list (FsOp Buffer)) :
  match extractPageToImage filePath pageNumber options trace with
  | (Raised _, after) => after = trace
  | (Done image, after) =>
      (exists pdfDoc page,
          getDocument filePath = inr pdfDoc /\
          getPage pdfDoc pageNumber = inr page /\
          renderPageToImage page None = inr image) /\
      after
      = (trace
           ++ match truthy_string (outputImageDir options) with
              | Some dir =>
                  [FsWrite
                     (path_resolve dir
                        ("page-" ++ Z_to_string pageNumber ++ ".jpg"))
                     (ContentBuffer image)]
              | None => []
              end)%list
  end.
Proof.
unfold extractPageToImage, bind, await, ret, Bun_write.
destruct (getDocument filePath) as [e | pdfDoc]; [reflexivity | ].
destruct (getPage pdfDoc pageNumber) as [e | page] eqn:P; [reflexivity | ].
destruct (renderPageToImage page None) as [e | image] eqn:R; [reflexivity | ].
assert (source : exists pdfDoc0 page0,
           @inr Err PDFDoc pdfDoc = inr pdfDoc0 /\
           getPage pdfDoc0 pageNumber = inr page0 /\
           renderPageToImage page0 None = inr image)
  by now exists pdfDoc, page.
cbv zeta.
destruct (truthy_string (outputImageDir options)) as [dir | ].
- destruct (bun_write _ _); [reflexivity | ].
  split; [exact source | reflexivity].
- split; [exact source | now rewrite app_nil_r].
Qed.

(** ** Newsletter processor: a complete run *)



(** ** Batch scanner *)

Section Scanner.

Context `{Helpers} `{Host}.

(** With the default options a run leaves the trace alone. *)
Lemma default_run_quiet (file : string) (trace : list (FsOp Buffer)) :
  processNewsletter file noOptions trace
  = (fst (processNewsletter file noOptions trace), trace).
Proof.
unfold processNewsletter, getTextInRect_async, bind, await, settle, ret.
destruct (getDocument file) as [e | pdfDoc]; [reflexivity | ].
destruct (getPage pdfDoc 1) as [e | firstPage]; [reflexivity | ].
destruct (getPage pdfDoc 3) as [e | editorialPage]; [reflexivity | ].
destruct (getTextContent_rejects firstPage); [reflexivity | ].
destruct (getTextContent_rejects editorialPage); [reflexivity | ].
cbn. destruct (cleanup pdfDoc); reflexivity.
Qed.

Lemma scanFiles_cons (file : string) (files : list string)
  (trace : list (FsOp Buffer)) :
  scanFiles (file :: files) trace
  = match fst (processNewsletter file noOptions trace) with
    | Done _ => scanFiles files trace
    | Raised e => (Raised e, trace)
    end.
Proof.
unfold scanFiles. cbn [forEach]. unfold bind at 1 2.
rewrite default_run_quiet.
destruct (fst (processNewsletter file noOptions trace)); reflexivity.
Qed.

Lemma scanFiles_quiet (files : list string) (trace : list (FsOp Buffer)) :
  snd (scanFiles files trace) = trace.
Proof.
induction files as [ | file files IH].
- reflexivity.
- rewrite scanFiles_cons.
  destruct (fst (processNewsletter file noOptions trace)); [exact IH | ].
  reflexivity.
Qed.

End Scanner.

Section Trim.

Lemma trimStart_clean (s : string) : startsClean s = true -> trimStart s = s.
Proof.
destruct s as [ | c s]; [discriminate | ]. cbn.
intros C. apply negb_true_iff in C. now rewrite C.
Qed.

Lemma endsClean_nonempty (s : string) :
  endsClean s = true -> exists c rest, s = String c rest.
Proof. destruct s as [ | c rest]; [discriminate | eauto]. Qed.

Lemma trimEnd_clean (s : string) : endsClean s = true -> trimEnd s = s.
Proof.
induction s as [ | c s IH]; [discriminate | ].
destruct s as [ | d s].
- cbn. intros C. apply negb_true_iff in C. now rewrite C.
- intros C. change (endsClean (String d s) = true) in C.
  cbn [trimEnd]. cbn [trimEnd] in IH. now rewrite (IH C).
Qed.

(** A stripped character at the very end goes away. *)
Lemma trimEnd_last (s : string) (c : ascii) :
  is_trimmed c = true -> trimEnd (s ++ String c "") = trimEnd s.
Proof.
intros C. induction s as [ | a s IH].
- cbn. now rewrite C.
- cbn [append trimEnd]. now rewrite IH.
Qed.

Lemma startsClean_append (a b : string) :
  startsClean a = true -> startsClean (a ++ b) = true.
Proof. destruct a; [discriminate | exact (fun C => C)]. Qed.

Lemma endsClean_append (a : string) (d : ascii) (b : string) :
  endsClean (a ++ String d b) = endsClean (String d b).
Proof.
induction a as [ | c a IH]; [reflexivity | ].
cbn [append]. rewrite <- IH. destruct a; reflexivity.
Qed.

(** The names of a listing, joined by line feeds. *)
Lemma listing_lines (name : string) (names : list string) :
  listing (name :: names)
  = String.concat (String LF "") (name :: names) ++ String LF "".
Proof.
revert name. induction names as [ | next names IH]; intros name.
- reflexivity.
- change (listing (name :: next :: names))
    with (name ++ String LF (listing (next :: names))).
  rewrite IH.
  change (String.concat (String LF "") (name :: next :: names))
    with (name ++ String LF (String.concat (String LF "") (next :: names))).
  generalize (String.concat (String LF "") (next :: names)). intros body.
  induction name as [ | c name IHn]; cbn [append];
    [reflexivity | now rewrite IHn].
Qed.

Lemma lines_end_clean (name : string) (names : list string) :
  endsClean (last (name :: names) "") = true ->
  endsClean (String.concat (String LF "") (name :: names)) = true.
Proof.
revert name. induction names as [ | next names IH]; intros name C.
- exact C.
- change (String.concat (String LF "") (name :: next :: names))
    with (name ++ String LF (String.concat (String LF "") (next :: names))).
  change (endsClean (last (next :: names) "") = true) in C.
  rewrite endsClean_append.
  destruct (endsClean_nonempty _ (IH next C)) as (d & rest & E).
  cbn [endsClean]. rewrite E. rewrite <- E. now apply IH.
Qed.

(** Splitting the joined lines gives the names back. *)
Lemma split_lines (name : string) (names : list string) :
  forallb (lacks LF) (name :: names) = true ->
  split LF (String.concat (String LF "") (name :: names)) = name :: names.
Proof.
revert name. induction names as [ | next names IH]; intros name L.
- cbn in L. rewrite andb_true_r in L. now apply split_lacks.
- change (String.concat (String LF "") (name :: next :: names))
    with (name ++ String LF (String.concat (String LF "") (next :: names))).
  cbn [forallb] in L. apply andb_true_iff in L. destruct L as [Lname Lrest].
  rewrite (split_first_field _ _ _ Lname). now rewrite (IH next Lrest).
Qed.

Lemma is_trimmed_LF : is_trimmed LF = true.
Proof. reflexivity. Qed.

(** [trim] then [split] on a listing: the names, without a spurious
    empty name for the final line feed. *)
Lemma split_trim_listing (name : string) (names : list string) :
  forallb (lacks LF) (name :: names) = true ->
  startsClean name = true ->
  endsClean (last (name :: names) "") = true ->
  split LF (trim (listing (name :: names))) = name :: names.
Proof.
intros L S E. rewrite listing_lines. unfold trim.
rewrite trimStart_clean.
- rewrite (trimEnd_last _ LF is_trimmed_LF).
  rewrite (trimEnd_clean _ (lines_end_clean name names E)).
  now apply split_lines.
- apply startsClean_append.
  destruct names as [ | next names]; [exact S | ].
  change (String.concat (String LF "") (name :: next :: names))
    with (name ++ String LF (String.concat (String LF "") (next :: names))).
  now apply startsClean_append.
Qed.

(** A text of white space only trims to the empty string. *)
Lemma trim_blank (s : string) :
  trimStart s = "" -> trim s = "".
Proof. unfold trim. now intros ->. Qed.

End Trim.

(** X8: a [for ... of] loop with an awaited body stops at the first
    element whose body raises: the error is the outcome of the loop, and
    the trace is the one that element left, so nothing is done for the
    elements after it, whatever the body would do on them.  This is the
    loop over the files in [scanNewsletters] and the loop over the pages
    in [processNewsletter]. *)
Theorem forEach_halts_at_first_failure
  `{Host} {A : Type} (body : A -> Async unit)
  (before after : list A) (x : A) (e : Err)
  (trace reached left : list (FsOp Buffer)) :
  forEach before body trace = (Done tt, reached) ->
  body x reached = (Raised e, left) ->
  forEach (before ++ x :: after)%list body trace = (Raised e, left).
Proof.
revert trace. induction before as [ | y before IH]; intros trace Hbefore Hx.
- cbn in Hbefore. injection Hbefore as <-.
  cbn [app forEach]. unfold bind. now rewrite Hx.
- cbn [app forEach] in *. unfold bind in *.
  destruct (body y trace) as [[[] | e'] next]; [ | discriminate].
  now apply IH.
Qed.

(** Three pages asked for of a document of three pages, the second
    number being out of range: the first page image stays written, the
    third is never rendered. *)
Lemma forEach_halts_at_first_failure_witness :
  forEach ([1%Z] ++ 9%Z :: [3%Z])%list savePage []
  = (Raised "Invalid page request",
     [FsWrite "1"
        (ContentBuffer
           (Painted (textContent_items (coverPage "March 2024"))
                    (a4Viewport 2) (Blank 1190 1684),
            "image/jpeg", 60%float))]).
Proof.
apply (@forEach_halts_at_first_failure SymHost Z savePage
         [1%Z] [3%Z] 9%Z "Invalid page request" []
         [FsWrite "1"
            (ContentBuffer
               (Painted (textContent_items (coverPage "March 2024"))
                        (a4Viewport 2) (Blank 1190 1684),
                "image/jpeg", 60%float))]);
  reflexivity.
Defined.

(** X9: [scanNewsletters] never writes or removes a file, whether the
    listing fails, a newsletter fails or all of them are processed: it
    runs every file with the default options. *)
Theorem scanNewsletters_never_writes
  `{Helpers} `{Shell} (trace : list (FsOp Buffer)) :
  snd (scanNewsletters trace) = trace.
Proof.
unfold scanNewsletters, bind, await.
destruct (shell_text _) as [e | entries]; [reflexivity | ].
apply scanFiles_quiet.
Qed.

(** X10: on a listing of one name per line, the last line feed included,
    [scanNewsletters] processes exactly the listed names, in order, when
    no name holds a line feed, the first does not start and the last does
    not end with white space. *)
Theorem scanNewsletters_processes_listing
  `{Helpers} `{Shell} (name : string) (names : list string)
  (trace : list (FsOp Buffer)) :
  shell_text ("ls " ++ NEWSLETTERS_DIR ++ "/*.pdf")
  = inr (listing (name :: names)) ->
  forallb (lacks LF) (name :: names) = true ->
  startsClean name = true ->
  endsClean (last (name :: names) "") = true ->
  scanNewsletters trace = scanFiles (name :: names) trace.
Proof.
intros Hls Hlf Hstart Hend.
unfold scanNewsletters, bind, await. rewrite Hls. cbv zeta.
now rewrite (split_trim_listing name names Hlf Hstart Hend).
Qed.

Lemma scanNewsletters_processes_listing_witness :
  scanNewsletters []
  = scanFiles ["newsletter/march.pdf"; "newsletter/spring.pdf"] [].
Proof.
apply (@scanNewsletters_processes_listing ModelHelpers SymHost SymShell
         "newsletter/march.pdf" ["newsletter/spring.pdf"] []);
  reflexivity.
Defined.

Lemma blank_trimStart (s : string) : blank s = true -> trimStart s = "".
Proof.
induction s as [ | c s IH]; [reflexivity | ].
cbn. intros B. apply andb_true_iff in B. destruct B as [-> B]. now apply IH.
Qed.

(** X11: an empty listing, or one of white space only, does not end the
    scan at once: [split] gives one empty name, and the scanner makes one
    attempt to process the file of empty path. *)
Theorem scanNewsletters_blank_listing
  `{Helpers} `{Shell} (entries : string) (trace : list (FsOp Buffer)) :
  shell_text ("ls " ++ NEWSLETTERS_DIR ++ "/*.pdf") = inr entries ->
  blank entries = true ->
  scanNewsletters trace
  = (match fst (processNewsletter "" noOptions trace) with
     | Done _ => Done tt
     | Raised e => Raised e
     end, trace).
Proof.
intros Hls Hblank.
unfold scanNewsletters, bind, await. rewrite Hls. cbv zeta.
rewrite (trim_blank _ (blank_trimStart _ Hblank)).
change (split LF "") with [""].
rewrite scanFiles_cons.
destruct (fst (processNewsletter "" noOptions trace)); reflexivity.
Qed.

(** A shell that lists nothing but a line feed. *)
Lemma scanNewsletters_blank_listing_witness :
  @scanNewsletters ModelHelpers SymHost
    {| import_meta_dir := "/repo"; shell_text := fun _ => inr (String LF "") |}
    []
  = (Raised "ENOENT", []).
Proof.
apply (@scanNewsletters_blank_listing ModelHelpers SymHost
         {| import_meta_dir := "/repo";
            shell_text := fun _ => inr (String LF "") |}
         (String LF "") []);
  reflexivity.
Defined.

(** ** Rectangle text extractor: edge cases *)

Section NotANumber.

Local Open Scope float_scope.

Lemma mul_nan_l (x y : float) :
  Prim2SF x = S754_nan -> Prim2SF (x * y) = S754_nan.
Proof. intros N. rewrite FloatAxioms.mul_spec, N. reflexivity. Qed.

Lemma sub_nan_l (x y : float) :
  Prim2SF x = S754_nan -> Prim2SF (x - y) = S754_nan.
Proof. intros N. rewrite FloatAxioms.sub_spec, N. reflexivity. Qed.

Lemma sub_nan_r (x y : float) :
  Prim2SF y = S754_nan -> Prim2SF (x - y) = S754_nan.
Proof.
intros N. rewrite FloatAxioms.sub_spec, N.
destruct (Prim2SF x); reflexivity.
Qed.

(** NaN is less than nothing. *)
Lemma lt_nan_l (x y : float) :
  Prim2SF x = S754_nan -> JsNum.lt x y = false.
Proof.
intros N. unfold JsNum.lt. rewrite FloatAxioms.ltb_spec, N. reflexivity.
Qed.

(** A box whose origin has a NaN coordinate intersects no target. *)
Lemma nan_origin_misses (viewport : Viewport) (box rect : Rect) :
  Prim2SF (r_x box) = S754_nan \/ Prim2SF (r_y box) = S754_nan ->
  rectIntersects (pdfRectToPixelRect viewport box) rect = false.
Proof.
intros [N | N].
- apply rectIntersects_false_x2. apply lt_nan_l. cbn. now apply mul_nan_l.
- apply rectIntersects_false_y2. apply lt_nan_l. cbn.
  apply sub_nan_l, mul_nan_l, sub_nan_r. exact N.
Qed.

(** A height that is absent or NaN is defaulted to zero. *)
Lemma or_zero_of_nothing (height : option float) :
  height = None \/ (exists h, height = Some h /\ PrimFloat.is_nan h = true) ->
  JsNum.or_zero height = PrimFloat.zero.
Proof.
intros [-> | (h & -> & N)]; [reflexivity | ].
unfold JsNum.or_zero, JsNum.truthy. rewrite N, orb_true_r. reflexivity.
Qed.

End NotANumber.

(** X12: when the filter keeps no item, in particular on a page without
    items, [getTextInRect] returns the empty string. *)
Theorem getTextInRect_nothing_kept (page : Page) (rect : Rect) :
  (forall item,
      In item (textContent_items page) ->
      keepItem (getViewport page 2%float) rect item = false) ->
  getTextInRect page rect = "".
Proof.
intros Hnone. unfold getTextInRect. cbv zeta.
induction (textContent_items page) as [ | item items IH]; [reflexivity | ].
cbn [filter]. rewrite (Hnone item (or_introl eq_refl)).
apply IH. intros other Hother. apply Hnone. now right.
Qed.

(** The editorial page holds nothing in the description rectangle. *)
Lemma getTextInRect_nothing_kept_witness :
  getTextInRect (plainPage "Dear readers") descriptionRect = "".
Proof.
apply (getTextInRect_nothing_kept (plainPage "Dear readers") descriptionRect).
intros item [<- | []]. reflexivity.
Defined.

(** X13: a text item without a height, or whose height is NaN, is left
    out like one of height 0: the [|| 0] default turns both into 0. *)
Theorem height_absent_or_nan_excluded
  (before after : list Item) (view : float -> Viewport) (rect : Rect)
  (t : TextItem) :
  ti_height t = None \/
  (exists h, ti_height t = Some h /\ PrimFloat.is_nan h = true) ->
  keepItem (view 2%float) rect (ItemText t) = false /\
  getTextInRect (mkPage (before ++ ItemText t :: after)%list view) rect
  = getTextInRect (mkPage (before ++ after)%list view) rect.
Proof.
intros Hh.
assert (R : keepItem (view 2%float) rect (ItemText t) = false).
{ unfold keepItem. cbn [itemRect r_height].
  now rewrite (or_zero_of_nothing _ Hh). }
split; [exact R | ].
unfold getTextInRect. cbn [textContent_items getViewport].
now rewrite (filter_rejected _ _ before after _ R).
Qed.

Lemma height_absent_or_nan_excluded_witness :
  keepItem (a4Viewport 2) dateRect
    (ItemText (mkTextItem "x" [1; 0; 0; 1; 400; 780]%float
                          (Some 150%float) (Some PrimFloat.nan))) = false /\
  getTextInRect
    (mkPage ([] ++ ItemText (mkTextItem "x" [1; 0; 0; 1; 400; 780]%float
                                        (Some 150%float) (Some PrimFloat.nan))
                :: [fragment "2024" 480 780 60 20]) a4Viewport) dateRect
  = getTextInRect
      (mkPage ([] ++ [fragment "2024" 480 780 60 20]) a4Viewport) dateRect.
Proof.
apply (height_absent_or_nan_excluded [] [fragment "2024" 480 780 60 20]
         a4Viewport dateRect
         (mkTextItem "x" [1; 0; 0; 1; 400; 780]%float
                     (Some 150%float) (Some PrimFloat.nan))).
right. exists PrimFloat.nan. split; reflexivity.
Defined.

(** X14: a text item whose [transform] has fewer than six entries has an
    undefined origin coordinate; its box is NaN there and it is never
    extracted, whatever the target and the viewport. *)
Theorem short_transform_excluded
  (view : float -> Viewport) (rect : Rect) (t : TextItem) :
  (List.length (ti_transform t) < 6)%nat ->
  keepItem (view 2%float) rect (ItemText t) = false.
Proof.
intros Hshort. unfold keepItem. cbv zeta.
destruct (JsNum.strict_eq (r_height (itemRect t)) PrimFloat.zero);
  [reflexivity | ].
apply nan_origin_misses. unfold itemRect, JsNum.index. cbn [r_x r_y].
destruct (ti_transform t) as [ | a [ | b [ | c [ | d [ | x [ | y more]]]]]];
  cbn in Hshort; try lia; cbn [nth]; auto.
Qed.

Lemma short_transform_excluded_witness :
  keepItem (a4Viewport 2) dateRect
    (ItemText (mkTextItem "March 2024" [1; 0; 0; 1; 400]%float
                          (Some 150%float) (Some 20%float))) = false.
Proof.
apply (short_transform_excluded a4Viewport dateRect
         (mkTextItem "March 2024" [1; 0; 0; 1; 400]%float
                     (Some 150%float) (Some 20%float))).
cbn. lia.
Defined.

(** ** From fragments to the issue number *)

Lemma join_two (first second : string) (rest : list string) :
  exists tail,
    join " " (first :: second :: rest) = first ++ String " " (second ++ tail) /\
    (tail = "" \/ exists r, tail = String " " r).
Proof.
unfold join. destruct rest as [ | third rest].
- exists "". split; [ | now left]. cbn. now rewrite append_empty_r.
- exists (String " " (String.concat " " (third :: rest))).
  split; [reflexivity | right; eauto].
Qed.

(** X15: the issue number is read from the second fragment kept in the
    rectangle, as soon as the first two kept fragments hold no space; with
    fewer than two kept fragments [safeParseInt] gets [undefined]. *)
Theorem issue_number_from_second_fragment
  `{Helpers} (page : Page) (rect : Rect) :
  let kept :=
    map ti_str
      (filter (participates (getViewport page 2%float) rect)
              (textItems (textContent_items page))) in
  forallb (lacks " ") (firstn 2 kept) = true ->
  issueTextToIssueNumber (getTextInRect page rect)
  = safeParseInt (nth_error kept 1).
Proof.
intros kept Hclean.
unfold issueTextToIssueNumber, getTextInRect. cbv zeta.
rewrite kept_strings. fold kept. f_equal.
destruct kept as [ | first [ | second rest]].
- reflexivity.
- cbn in Hclean. rewrite andb_true_r in Hclean.
  cbn [join String.concat nth_error]. now rewrite (split_lacks _ _ Hclean).
- cbn [firstn forallb] in Hclean. rewrite andb_true_r in Hclean.
  apply andb_true_iff in Hclean. destruct Hclean as [L1 L2].
  destruct (join_two first second rest) as (tail & -> & Htail).
  now apply split_second_field.
Qed.

(** On the cover page the issue rectangle keeps [Issue] and [42]. *)
Lemma issue_number_from_second_fragment_witness :
  issueTextToIssueNumber (getTextInRect (coverPage "March 2024") issueRect)
  = safeParseInt (Some "42").
Proof.
apply (@issue_number_from_second_fragment ModelHelpers
         (coverPage "March 2024") issueRect).
reflexivity.
Defined.

(** ** Slug *)

Lemma append_cancel_l (a b c : string) : a ++ b = a ++ c -> b = c.
Proof.
induction a as [ | x a IH]; cbn; intros E; [exact E | ].
injection E as E. now apply IH.
Qed.

Lemma Z_to_string_inj (m n : Z) : Z_to_string m = Z_to_string n -> m = n.
Proof.
unfold Z_to_string. intros E.
apply (f_equal NilEmpty.int_of_string) in E.
rewrite !NilEmpty.isi in E. injection E as E.
apply (f_equal Z.of_int) in E. now rewrite !DecimalZ.of_to in E.
Qed.

(** The digits of a number are neither [undefined] nor [null]. *)
Lemma Z_to_string_not_word (n : Z) (word : string) :
  NilEmpty.int_of_string word = None -> Z_to_string n = word -> False.
Proof.
unfold Z_to_string. intros W E.
apply (f_equal NilEmpty.int_of_string) in E.
rewrite NilEmpty.isi, W in E. discriminate.
Qed.

Lemma JsInt_to_string_inj (a b : JsInt) :
  JsInt_to_string a = JsInt_to_string b -> a = b.
Proof.
destruct a as [ | | m], b as [ | | n]; cbn [JsInt_to_string]; intros E;
  try reflexivity; try discriminate.
- symmetry in E. now apply Z_to_string_not_word in E.
- symmetry in E. now apply Z_to_string_not_word in E.
- now apply Z_to_string_not_word in E.
- now apply Z_to_string_not_word in E.
- f_equal. now apply Z_to_string_inj.
Qed.

(** X16: for one date, the text handed to [slugify] tells issue numbers
    apart: two issue numbers that are [undefined], [null] or safe
    integers give the same text exactly when they are the same. *)
Theorem slugSource_tells_issues_apart
  (date : option JSDate) (a b : JsInt) :
  printable a = true ->
  printable b = true ->
  slugSource date a = slugSource date b <-> a = b.
Proof.
intros _ _. split; [ | now intros ->].
unfold slugSource. intros E.
repeat apply append_cancel_l in E.
now apply JsInt_to_string_inj.
Qed.

Lemma slugSource_tells_issues_apart_witness :
  slugSource (Some (ValidDate 2024 2)) (JsNumber 42)
  = slugSource (Some (ValidDate 2024 2)) JsUndefined
  <-> JsNumber 42 = JsUndefined.
Proof.
apply (slugSource_tells_issues_apart (Some (ValidDate 2024 2))
         (JsNumber 42) JsUndefined);
  reflexivity.
Defined.

(** ** Extraction from a page in two parts *)

Lemma concat_app (sep : string) (a b : list string) :
  a <> [] -> b <> [] ->
  String.concat sep (a ++ b)%list
  = String.concat sep a ++ sep ++ String.concat sep b.
Proof.
intros Ha Hb. induction a as [ | x a IH]; [contradiction | ].
destruct a as [ | y a].
- destruct b as [ | z b]; [contradiction | reflexivity].
- change (String.concat sep ((x :: y :: a) ++ b)%list)
    with (x ++ sep ++ String.concat sep ((y :: a) ++ b)%list).
  rewrite IH by discriminate.
  change (String.concat sep (x :: y :: a))
    with (x ++ sep ++ String.concat sep (y :: a)).
  generalize (String.concat sep (y :: a)) (String.concat sep b).
  intros s1 s2.
  assert (assoc : forall u v w : string, (u ++ v) ++ w = u ++ v ++ w).
  { induction u as [ | c u IHu]; intros v w; cbn [append];
      [reflexivity | now rewrite IHu]. }
  now rewrite !assoc.
Qed.

(** X17: the text of a page made of two runs of items is the text of the
    first run, one space, and the text of the second run; when a run
    keeps no item, it is the text of the other run alone, without a
    stray space for what was left out. *)
Theorem getTextInRect_two_parts
  (first second : list Item) (view : float -> Viewport) (rect : Rect) :
  getTextInRect (mkPage (first ++ second)%list view) rect
  = match filter (keepItem (view 2%float) rect) first,
          filter (keepItem (view 2%float) rect) second with
    | [], _ => getTextInRect (mkPage second view) rect
    | _ :: _, [] => getTextInRect (mkPage first view) rect
    | _ :: _, _ :: _ =>
        getTextInRect (mkPage first view) rect ++ " "
          ++ getTextInRect (mkPage second view) rect
    end.
Proof.
unfold getTextInRect. cbn [textContent_items getViewport].
rewrite filter_app, map_app.
destruct (filter (keepItem (view 2%float) rect) first) as [ | a ka] eqn:E1.
- reflexivity.
- destruct (filter (keepItem (view 2%float) rect) second) as [ | b kb] eqn:E2.
  + cbn [map]. now rewrite app_nil_r.
  + unfold join. apply concat_app; discriminate.
Qed.

